(** * Tax pipeline of ashripal/50874-lab2: a shallow embedding

    The repository holds three implementations of one household tax
    pipeline (FIFO capital gains, EWMA income smoothing, federal brackets
    and deductions, California and Texas state tax, final rounding):

    - [single_thread/analysis.py]   four SQL passes, Python [float];
    - [shared_state/analysis.py]    the same arithmetic in one function
                                    per taxpayer, Python [float];
    - [async_event_loop/*.py]       one coroutine per taxpayer, [Decimal].

    Python [float] code is embedded once, over an interface [PyFloat] of
    the operations the code uses, and read at two instances: exact
    rationals (what the arithmetic means) and IEEE binary64 (what CPython
    computes).  [Decimal] code is embedded over [Q] and read twice as
    well: exactly (module [AsyncEngine], what the arithmetic means) and
    with every sum, difference and product rounded to the 28 significant
    digits of the default context (module [AsyncEngine.Prec28], what
    the interpreter computes); [process_taxpayer] is embedded on the
    latter.

    SQL query results are inputs of the embedded functions, in the order
    the query's ORDER BY clause fixes.  The rows of the float variants
    hold a number in every amount column; the floats single_thread
    writes in one pass and reads in the next go through the REAL columns
    of its tables, which store a NaN as NULL. *)

From Stdlib Require Import ZArith QArith Qround Qabs Qminmax Lqa Lia List Bool Sorted.
From Stdlib Require Import Floats.
From stdpp Require Import gmap strings.

Local Open Scope Z_scope.

(** ** Python numbers *)

(** The operations the float-based variants apply to their numbers.
    [f_lit n d] is the decimal literal [n/d] ([d] a power of ten),
    [f_round] is the builtin [round(x)] with one argument. *)
Class PyFloat (F : Type) := {
  f_of_Z : Z -> F;
  f_lit : Z -> positive -> F;
  f_add : F -> F -> F;
  f_sub : F -> F -> F;
  f_mul : F -> F -> F;
  f_ltb : F -> F -> bool;
  f_leb : F -> F -> bool;
  f_eqb : F -> F -> bool;
  f_round : F -> option Z
}.

Declare Scope py_scope.
Delimit Scope py_scope with py.
Infix "+" := f_add : py_scope.
Infix "-" := f_sub : py_scope.
Infix "*" := f_mul : py_scope.
Infix "<?" := f_ltb : py_scope.
Infix "<=?" := f_leb : py_scope.
Infix "=?" := f_eqb : py_scope.

Module Py.
Section Builtins.
Context {F : Type} `{PyFloat F}.
Local Open Scope py_scope.

(** [min(a, b)]: the first argument unless the second is smaller. *)
Definition min (a b : F) : F := if b <? a then b else a.

(** [max(a, b)]: the first argument unless the second is larger. *)
Definition max (a b : F) : F := if a <? b then b else a.

(** Truth value of a number: [x != 0]. *)
Definition truthy (x : F) : bool := negb (x =? f_of_Z 0).

(** [v if v is not None else d] *)
Definition if_not_none (v : option F) (d : F) : F :=
  match v with Some x => x | None => d end.

(** [v if v else d]: [None] and zero are both false. *)
Definition if_truthy (v : option F) (d : F) : F :=
  match v with
  | Some x => if truthy x then x else d
  | None => d
  end.
End Builtins.
End Py.

(** *** Exact arithmetic *)

Definition Qltb (x y : Q) : bool := negb (Qle_bool y x).

(** Rounding to the nearest integer, ties to the even neighbour: what
    [round(x)] returns for a float [x] whose value is the rational. *)
Definition round_half_even (x : Q) : Z :=
  let n := Qnum x in
  let d := Zpos (Qden x) in
  let q := n / d in
  let r := n mod d in
  match 2 * r ?= d with
  | Lt => q
  | Gt => q + 1
  | Eq => if Z.even q then q else q + 1
  end.

#[export] Instance Q_exact : PyFloat Q := {
  f_of_Z := inject_Z;
  f_lit := Qmake;
  f_add := Qplus;
  f_sub := Qminus;
  f_mul := Qmult;
  f_ltb := Qltb;
  f_leb := Qle_bool;
  f_eqb := Qeq_bool;
  f_round := fun x => Some (round_half_even x)
}.

(** *** Decimal in the default context *)

(** [decimal.getcontext()] is never changed: precision 28, rounding
    ROUND_HALF_EVEN.  A [Decimal] built from a string is exact; the
    result of [+], [-] and [*] is the exact result rounded to 28
    significant digits; comparisons, [min] and [max] are exact. *)
Module Dec.
Local Open Scope Q_scope.

Definition pow10 (e : Z) : Q :=
  match e with
  | Z0 => 1
  | Zpos p => inject_Z (10 ^ Zpos p)
  | Zneg p => Qmake 1 (10 ^ p)%positive
  end.

(** The exponent of the 28th significant digit of [x > 0]: the [e] with
    [10^27 <= x / 10^e < 10^28], searched from [e]. *)
Fixpoint exponent (fuel : nat) (x : Q) (e : Z) : Z :=
  match fuel with
  | O => e
  | S fuel =>
      if Qle_bool (pow10 28) (x * pow10 (- e)) then exponent fuel x (e + 1)
      else if Qltb (x * pow10 (- e)) (pow10 27) then exponent fuel x (e - 1)
      else e
  end.

(** Rounding to 28 significant digits, ties to even. *)
Definition round (q : Q) : Q :=
  if Qeq_bool q 0 then 0
  else
    let a := Qabs q in
    let fuel :=
      (Z.to_nat (Z.log2 (Z.abs (Qnum q)) + Z.log2 (Zpos (Qden q))) + 64)%nat in
    let e := exponent fuel a 0 in
    let r := inject_Z (round_half_even (a * pow10 (- e))) * pow10 e in
    if Qltb q 0 then - r else r.

Definition add (x y : Q) : Q := round (x + y).
Definition sub (x y : Q) : Q := round (x - y).
Definition mul (x y : Q) : Q := round (x * y).

(** [sum(...)] of a generator: from the integer 0, left to right. *)
Definition sum (l : list Q) : Q := fold_left add l 0.
End Dec.

(** *** IEEE binary64 *)

(** [float(n)] for an integer of magnitude below [2^63]. *)
Definition float_of_Z (z : Z) : float :=
  match z with
  | Z0 => PrimFloat.zero
  | Zpos p => PrimFloat.of_uint63 (Uint63.of_Z (Zpos p))
  | Zneg p => PrimFloat.opp (PrimFloat.of_uint63 (Uint63.of_Z (Zpos p)))
  end.

(** The rational a finite float denotes. *)
Definition float_value (x : float) : option Q :=
  match Prim2SF x with
  | S754_zero _ => Some (0 # 1)
  | S754_finite s m e =>
      let v := match e with
               | Zneg k => Qmake (Zpos m) (2 ^ k)%positive
               | _ => inject_Z (Zpos m * 2 ^ e)
               end in
      Some (if s then Qopp v else v)
  | S754_infinity _ | S754_nan => None
  end.

(** [round(x)] raises on infinities and NaN. *)
Definition float_round (x : float) : option Z :=
  option_map round_half_even (float_value x).

#[export] Instance binary64 : PyFloat float := {
  f_of_Z := float_of_Z;
  f_lit := fun n d => PrimFloat.div (float_of_Z n) (float_of_Z (Zpos d));
  f_add := PrimFloat.add;
  f_sub := PrimFloat.sub;
  f_mul := PrimFloat.mul;
  f_ltb := PrimFloat.ltb;
  f_leb := PrimFloat.leb;
  f_eqb := PrimFloat.eqb;
  f_round := float_round
}.


(** ** single_thread/analysis.py *)

Module SingleThread.

(** A row of [asset_purchases] or of [asset_sales] (same columns). *)
Record asset_row (F : Type) := {
  row_id : Z;
  asset_id : string;
  date : string;
  quantity : F;
  unit_price : F
}.
Arguments row_id {F} _.
Arguments asset_id {F} _.
Arguments date {F} _.
Arguments quantity {F} _.
Arguments unit_price {F} _.

(** A purchase dict once the matcher has added its ['remaining'] key. *)
Record purchase (F : Type) := {
  p_row : asset_row F;
  remaining : F
}.
Arguments p_row {F} _.
Arguments remaining {F} _.

(** The row written to [capital_gains_result]. *)
Record capital_gains_result (F : Type) := {
  net_capital_gain : F;
  total_sales_proceeds : F;
  total_cost_basis : F
}.
Arguments net_capital_gain {F} _.
Arguments total_sales_proceeds {F} _.
Arguments total_cost_basis {F} _.

Inductive deduction_method := Itemized | Standard.

(** The columns of [federal_calculations] that pass 2 sets. *)
Record federal_calculations (F : Type) := {
  gross_income : F;
  surcharge_amount : F;
  standard_deduction_val : F;
  itemized_deduction_val : F;
  fc_deduction_method : deduction_method;
  taxable_income : F;
  bracket_tax : F;
  final_federal_tax : F
}.
Arguments gross_income {F} _.
Arguments surcharge_amount {F} _.
Arguments standard_deduction_val {F} _.
Arguments itemized_deduction_val {F} _.
Arguments fc_deduction_method {F} _.
Arguments taxable_income {F} _.
Arguments bracket_tax {F} _.
Arguments final_federal_tax {F} _.

(** The rows pass 3 writes: [state_calculations] (California and Texas
    only) and [final_liability] (every taxpayer). *)
Record state_calculations (F : Type) := {
  state_name : string;
  california_gross_basis : option F;
  texas_taxable_basis : option F;
  final_state_tax : F
}.
Arguments state_name {F} _.
Arguments california_gross_basis {F} _.
Arguments texas_taxable_basis {F} _.
Arguments final_state_tax {F} _.

Record final_liability := {
  total_federal_tax : Z;
  total_state_tax : Z
}.

Section Passes.
Context {F : Type} `{PyFloat F}.
Local Open Scope py_scope.

Local Notation "0.0" := (f_of_Z 0).

(** *** Pass 1: capital gains *)

(** The inner [for p in purchases] loop for one sale: walks every
    purchase of the taxpayer in query order, whatever its asset, until
    [qty_to_sell <= 0]; the purchase dicts are updated in place. *)
Fixpoint match_purchases (purchases : list (purchase F))
    (qty_to_sell cost_basis_for_sale : F)
    : list (purchase F) * F * F :=
  match purchases with
  | [] => ([], qty_to_sell, cost_basis_for_sale)
  | p :: rest =>
      if qty_to_sell <=? 0.0 then (p :: rest, qty_to_sell, cost_basis_for_sale)
      else if 0.0 <? remaining p then
        let taken := Py.min qty_to_sell (remaining p) in
        let p' := {| p_row := p_row p; remaining := remaining p - taken |} in
        let '(rest', qty', basis') :=
          match_purchases rest (qty_to_sell - taken)
            (cost_basis_for_sale + taken * unit_price (p_row p)) in
        (p' :: rest', qty', basis')
      else
        let '(rest', qty', basis') :=
          match_purchases rest qty_to_sell cost_basis_for_sale in
        (p :: rest', qty', basis')
  end.

(** One iteration of [for sale in sales]. *)
Definition process_sale
    (st : list (purchase F) * capital_gains_result F) (sale : asset_row F)
    : list (purchase F) * capital_gains_result F :=
  let '(purchases, acc) := st in
  let qty_to_sell := quantity sale in
  let sale_price := unit_price sale in
  let '(purchases', _, cost_basis_for_sale) :=
    match_purchases purchases qty_to_sell 0.0 in
  let sale_proceeds := quantity sale * sale_price in
  let gain := sale_proceeds - cost_basis_for_sale in
  (purchases',
   {| net_capital_gain := net_capital_gain acc + gain;
      total_sales_proceeds := total_sales_proceeds acc + sale_proceeds;
      total_cost_basis := total_cost_basis acc + cost_basis_for_sale |}).

(** The body of [for tp_id in taxpayers] in [calculate_capital_gains]:
    [purchases] and [sales] are the two query results of the taxpayer,
    each ordered by (date, id). *)
Definition calculate_capital_gains
    (purchases sales : list (asset_row F)) : capital_gains_result F :=
  let purchases :=
    map (fun p => {| p_row := p; remaining := quantity p |}) purchases in
  snd (fold_left process_sale sales
         (purchases,
          {| net_capital_gain := 0.0;
             total_sales_proceeds := 0.0;
             total_cost_basis := 0.0 |})).

(** *** Pass 1: EWMA *)

(** [{row['year_offset']: row['amount'] for row in rows}]: a later row
    replaces an earlier one with the same offset. *)
Definition history_of_rows (rows : list (Z * F)) : gmap Z F :=
  fold_left (fun m r => <[ r.1 := r.2 ]> m) rows ∅.

(** [history.get(k, 0.0)] *)
Definition history_get (history : gmap Z F) (k : Z) : F :=
  default 0.0 (history !! k).

Definition alpha : F := f_lit 6 10.

(** The body of [for tp_id in taxpayers] in [calculate_ewma]. *)
Definition calculate_ewma (rows : list (Z * F)) : F :=
  let history := history_of_rows rows in
  let y_minus_5 := history_get history (-5) in
  let e_val := y_minus_5 in
  fold_left
    (fun e_val year_offset =>
       let income_val := history_get history year_offset in
       (alpha * income_val) + ((f_of_Z 1 - alpha) * e_val))
    [-4; -3; -2; -1] e_val.


(** *** Pass 2: federal tax *)

(** The block under [# 5. Progressive Brackets]. *)
Definition federal_brackets (taxable_income : F) : F :=
  let bracket_tax := 0.0 in
  let remaining_income := taxable_income in
  (* Chunk 1: 0 to 100,000 *)
  let chunk := Py.min remaining_income (f_of_Z 100000) in
  let bracket_tax := bracket_tax + chunk * f_lit 5 100 in
  let remaining_income := remaining_income - chunk in
  (* Chunk 2: 100,000 to 200,000 *)
  let '(bracket_tax, remaining_income) :=
    if f_of_Z 0 <? remaining_income then
      let chunk := Py.min remaining_income (f_of_Z 100000) in
      (bracket_tax + chunk * f_lit 10 100, remaining_income - chunk)
    else (bracket_tax, remaining_income) in
  (* Chunk 3: 200,000 to 300,000 *)
  let '(bracket_tax, remaining_income) :=
    if f_of_Z 0 <? remaining_income then
      let chunk := Py.min remaining_income (f_of_Z 100000) in
      (bracket_tax + chunk * f_lit 15 100, remaining_income - chunk)
    else (bracket_tax, remaining_income) in
  (* Chunk 4: > 300,000 *)
  if f_of_Z 0 <? remaining_income then
    bracket_tax + remaining_income * f_lit 20 100
  else bracket_tax.

(** The body of [for row in rows] in [calculate_federal_tax].  The
    joined row gives [w2_income], [num_children], [net_capital_gain]
    and [ewma_income] (the last two NULL when the LEFT JOIN finds no
    row); [total_donations] is the result of the SUM query, NULL when
    the taxpayer has no donation. *)
Definition calculate_federal_tax (w2 : F) (num_children : Z)
    (net_capital_gain ewma_income total_donations : option F)
    : federal_calculations F :=
  let net_cap_gain := Py.if_not_none net_capital_gain 0.0 in
  (* 1. Gross Income *)
  let gross_income := w2 + net_cap_gain in
  (* 2. Surcharge *)
  let ewma := Py.if_not_none ewma_income 0.0 in
  let surcharge :=
    if f_of_Z 1000000 <? ewma then f_lit 2 100 * gross_income else 0.0 in
  (* 3. Deductions *)
  let standard_ded := f_of_Z 10000 in
  let charitable_ded := Py.if_truthy total_donations 0.0 in
  let taxable_base_for_child := gross_income - charitable_ded in
  let child_rate := f_of_Z (Z.min num_children 10) * f_lit 1 100 in
  let child_ded_val :=
    if f_of_Z 0 <? taxable_base_for_child
    then child_rate * taxable_base_for_child else 0.0 in
  let itemized_total := charitable_ded + child_ded_val in
  let '(deduction_val, deduction_method) :=
    if standard_ded <? itemized_total
    then (itemized_total, Itemized)
    else (standard_ded, Standard) in
  (* 4. Taxable Income *)
  let taxable_income := Py.max 0.0 (gross_income - deduction_val) in
  (* 5. Progressive Brackets *)
  let bracket_tax := federal_brackets taxable_income in
  let final_federal_tax := bracket_tax + surcharge in
  {| gross_income := gross_income;
     surcharge_amount := surcharge;
     standard_deduction_val := standard_ded;
     itemized_deduction_val := itemized_total;
     fc_deduction_method := deduction_method;
     taxable_income := taxable_income;
     bracket_tax := bracket_tax;
     final_federal_tax := final_federal_tax |}.

(** *** Pass 3: state tax and final liability *)

(** The Texas bracket block. *)
Definition texas_brackets (taxable_inc : F) : F :=
  let tx_tax := 0.0 in
  let rem := taxable_inc in
  (* Chunk 1: 0-90k *)
  let chunk := Py.min rem (f_of_Z 90000) in
  let tx_tax := tx_tax + chunk * f_lit 3 100 in
  let rem := rem - chunk in
  (* Chunk 2: 90k-200k (Size 110k) *)
  let '(tx_tax, rem) :=
    if f_of_Z 0 <? rem then
      let chunk := Py.min rem (f_of_Z 110000) in
      (tx_tax + chunk * f_lit 5 100, rem - chunk)
    else (tx_tax, rem) in
  (* Chunk 3: >200k *)
  if f_of_Z 0 <? rem then tx_tax + rem * f_lit 7 100 else tx_tax.

(** The state branch of the loop body of [calculate_state_tax]: the
    [state_calculations] row it inserts, if any, and [final_state_tax]. *)
Definition state_branch (state : string) (w2_income : F)
    (net_capital_gain : option F) (fc : federal_calculations F)
    : option (state_calculations F) * F :=
  let final_state_tax := 0.0 in
  if String.eqb state "California" then
    let w2 := w2_income in
    let net_gain := Py.if_truthy net_capital_gain 0.0 in
    let ca_tax_base :=
      (f_lit 4 100 * w2) + (f_lit 6 100 * Py.max 0.0 net_gain) in
    let final_state_tax := ca_tax_base in
    let final_state_tax :=
      if f_of_Z 0 <? surcharge_amount fc
      then final_state_tax * f_lit 105 100 else final_state_tax in
    (Some {| state_name := state;
             california_gross_basis := Some ca_tax_base;
             texas_taxable_basis := None;
             final_state_tax := final_state_tax |},
     final_state_tax)
  else if String.eqb state "Texas" then
    let taxable_inc := taxable_income fc in
    let tx_tax := texas_brackets taxable_inc in
    let deduction_used :=
      match fc_deduction_method fc with
      | Itemized => itemized_deduction_val fc
      | Standard => standard_deduction_val fc
      end in
    let tx_tax :=
      if f_of_Z 15000 <? deduction_used
      then tx_tax * f_lit 99 100 else tx_tax in
    let final_state_tax := tx_tax in
    (Some {| state_name := state;
             california_gross_basis := None;
             texas_taxable_basis := Some taxable_inc;
             final_state_tax := final_state_tax |},
     final_state_tax)
  else (None, final_state_tax).

(** The body of [for row in rows] in [calculate_state_tax]; [None] when
    [round] raises (a NaN or an infinite tax). *)
Definition calculate_state_tax (state : string) (w2_income : F)
    (net_capital_gain : option F) (fc : federal_calculations F)
    : option (option (state_calculations F) * final_liability) :=
  let '(state_row, final_state_tax) :=
    state_branch state w2_income net_capital_gain fc in
  match f_round (final_federal_tax fc), f_round final_state_tax with
  | Some fed_tax_rounded, Some state_tax_rounded =>
      Some (state_row,
            {| total_federal_tax := fed_tax_rounded;
               total_state_tax := state_tax_rounded |})
  | _, _ => None
  end.

(** *** The pipeline of [run_analysis] for one taxpayer *)

(** The input rows of one taxpayer as the passes select them;
    [total_donations] is the result of [SUM(amount)], NULL when the
    taxpayer has no donation row. *)
Record taxpayer := {
  state : string;
  w2_income : F;
  num_children : Z;
  income_history : list (Z * F);
  asset_purchases : list (asset_row F);
  asset_sales : list (asset_row F);
  total_donations : option F
}.

(** A float written to a REAL column and read back: SQLite stores a
    NaN as NULL. *)
Definition sqlite_real (x : F) : option F :=
  if x =? x then Some x else None.

(** The four passes, each reading what the earlier ones stored:
    [net_capital_gain] and [ewma_income] are read back with their
    defaults; pass 3 raises a TypeError on a NULL in a column of
    [federal_calculations] it compares or rounds. *)
Definition run_analysis (t : taxpayer)
    : option (option (state_calculations F) * final_liability) :=
  let cg := calculate_capital_gains (asset_purchases t) (asset_sales t) in
  let net_capital_gain := sqlite_real (net_capital_gain cg) in
  let ewma := sqlite_real (calculate_ewma (income_history t)) in
  let fc :=
    calculate_federal_tax (w2_income t) (num_children t)
      net_capital_gain ewma (total_donations t) in
  let read :=
    (if String.eqb (state t) "California"
     then [surcharge_amount fc; final_federal_tax fc]
     else if String.eqb (state t) "Texas"
     then [taxable_income fc;
           match fc_deduction_method fc with
           | Itemized => itemized_deduction_val fc
           | Standard => standard_deduction_val fc
           end;
           final_federal_tax fc]
     else [final_federal_tax fc]) in
  if forallb (fun x => x =? x) read
  then calculate_state_tax (state t) (w2_income t) net_capital_gain fc
  else None.
End Passes.
Arguments taxpayer F : clear implicits.
End SingleThread.

(** ** async_event_loop: analysis_engine.py, ingestion.py, output_writer.py *)

Module AsyncEngine.
Local Open Scope Q_scope.

(** *** Utility: math and brackets *)

(** [d.quantize(Decimal("1"), rounding=ROUND_HALF_UP)]: nearest integer,
    ties away from zero. *)
Definition round_dollar (d : Q) : Z :=
  let r := Qfloor (Qabs d + (1 # 2)) in
  if Qltb d 0 then (- r)%Z else r.

(** A bracket limit: a finite amount or [Decimal("Infinity")]. *)
Inductive limit := Finite (q : Q) | Infinity.

(** [min(income, limit)] *)
Definition min_limit (income : Q) (l : limit) : Q :=
  match l with
  | Finite q => Py.min income q
  | Infinity => income
  end.

(** [income > previous_limit] *)
Definition exceeds (income : Q) (previous_limit : limit) : bool :=
  match previous_limit with
  | Finite q => Qltb q income
  | Infinity => false
  end.

(** [min(income, limit) - previous_limit]; the loop only subtracts a
    finite [previous_limit], an infinite one having ended it. *)
Definition minus_limit (x : Q) (previous_limit : limit) : Q :=
  match previous_limit with
  | Finite q => x - q
  | Infinity => 0
  end.

(** The [for limit, rate in brackets] loop, from the current [tax] and
    [previous_limit]. *)
Fixpoint bracket_loop (income : Q) (brackets : list (limit * Q))
    (tax : Q) (previous_limit : limit) : Q :=
  match brackets with
  | [] => tax
  | (limit, rate) :: rest =>
      if exceeds income previous_limit then
        let taxable_in_bracket :=
          minus_limit (min_limit income limit) previous_limit in
        bracket_loop income rest (tax + taxable_in_bracket * rate) limit
      else tax
  end.

Definition calculate_bracket_tax (income : Q) (brackets : list (limit * Q)) : Q :=
  bracket_loop income brackets 0 (Finite 0).

(** *** Ingestion: EWMA *)

(** [calculate_ewma(history)] of ingestion.py; [None] is the IndexError
    of [history[0]] on an empty list. *)
Definition calculate_ewma (history : list Q) : option Q :=
  let alpha := 6 # 10 in
  match history with
  | [] => None
  | h0 :: rest =>
      let e_k := h0 in
      Some (fold_left
              (fun e_k income =>
                 let y_curr := income in
                 (alpha * y_curr) + ((1 - alpha) * e_k))
              rest e_k)
  end.

(** *** Step 1: capital gains (FIFO) *)

Inductive transaction_type := BUY | SELL.

(** A row of [asset_transactions] as the query of
    [process_capital_gains] selects it. *)
Record transaction := {
  transaction_id : Z;
  t_type : transaction_type;
  t_asset_id : string;
  t_quantity : Q;
  t_unit_price : Q;
  remaining_quantity : option Q
}.

(** An entry of [portfolio[asset]]: the dict with keys id, price and
    remaining. *)
Record lot := {
  lot_id : Z;
  price : Q;
  remaining : Q
}.

(** A row inserted into [realized_gains]. *)
Record realized_gain := {
  sell_transaction_id : Z;
  buy_transaction_id : Z;
  matched_quantity : Q;
  gain_amount : Q
}.

(** The state of one call: the local [portfolio] and
    [realized_gains_total], the rows inserted into [realized_gains], the
    [remaining_quantity] values written back to [asset_transactions], and
    the assets of the overselling warnings logged. *)
Record cg_state := {
  portfolio : gmap string (list lot);
  realized_gains_total : Q;
  realized_gains : list realized_gain;
  remaining_updates : list (Z * Q);
  warnings : list string
}.

Definition is_open (b : lot) : bool := Qltb 0 (remaining b).

(** [portfolio[asset]], the key having been created beforehand. *)
Definition lots_of (p : gmap string (list lot)) (asset : string) : list lot :=
  default [] (p !! asset).

(** [earliest_buy['remaining'] -= match_qty], seen from the list that
    holds the dict: [earliest_buy] is the first open entry. *)
Fixpoint decrement_earliest (lots : list lot) (match_qty : Q) : list lot :=
  match lots with
  | [] => []
  | b :: rest =>
      if is_open b
      then {| lot_id := lot_id b; price := price b;
              remaining := remaining b - match_qty |} :: rest
      else b :: decrement_earliest rest match_qty
  end.

(** The [while shares_to_sell > 0] loop of one SELL; [None] when the
    fuel does not reach the end of the loop. *)
Fixpoint sell_loop (fuel : nat) (t_id : Z) (asset : string)
    (sell_price shares_to_sell : Q) (st : cg_state) : option cg_state :=
  match fuel with
  | O => None
  | S fuel =>
      if Qltb 0 shares_to_sell then
        let valid_buys := List.filter is_open (lots_of (portfolio st) asset) in
        match valid_buys with
        | [] =>
            Some {| portfolio := portfolio st;
                    realized_gains_total := realized_gains_total st;
                    realized_gains := realized_gains st;
                    remaining_updates := remaining_updates st;
                    warnings := warnings st ++ [asset] |}
        | earliest_buy :: _ =>
            let match_qty := Py.min shares_to_sell (remaining earliest_buy) in
            let gain := match_qty * (sell_price - price earliest_buy) in
            sell_loop fuel t_id asset sell_price (shares_to_sell - match_qty)
              {| portfolio :=
                   <[ asset := decrement_earliest
                                 (lots_of (portfolio st) asset) match_qty ]>
                     (portfolio st);
                 realized_gains_total := realized_gains_total st + gain;
                 realized_gains :=
                   realized_gains st ++
                   [ {| sell_transaction_id := t_id;
                        buy_transaction_id := lot_id earliest_buy;
                        matched_quantity := match_qty;
                        gain_amount := gain |} ];
                 remaining_updates :=
                   remaining_updates st ++
                   [ (lot_id earliest_buy,
                      remaining earliest_buy - match_qty) ];
                 warnings := warnings st |}
        end
      else Some st
  end.

(** One iteration of [for txn in transactions]. *)
Definition process_transaction (st : cg_state) (txn : transaction)
    : option cg_state :=
  let asset := t_asset_id txn in
  let qty := t_quantity txn in
  let price := t_unit_price txn in
  let portfolio :=
    match portfolio st !! asset with
    | None => <[ asset := [] ]> (portfolio st)
    | Some _ => portfolio st
    end in
  match t_type txn with
  | BUY =>
      Some {| portfolio :=
                <[ asset := lots_of portfolio asset ++
                            [ {| lot_id := transaction_id txn;
                                 price := price;
                                 remaining := qty |} ] ]> portfolio;
              realized_gains_total := realized_gains_total st;
              realized_gains := realized_gains st;
              remaining_updates := remaining_updates st;
              warnings := warnings st |}
  | SELL =>
      let st := {| portfolio := portfolio;
                   realized_gains_total := realized_gains_total st;
                   realized_gains := realized_gains st;
                   remaining_updates := remaining_updates st;
                   warnings := warnings st |} in
      sell_loop (S (length (lots_of portfolio asset)))
        (transaction_id txn) asset price qty st
  end.

Definition cg_init : cg_state :=
  {| portfolio := ∅;
     realized_gains_total := 0;
     realized_gains := [];
     remaining_updates := [];
     warnings := [] |}.

(** The transactions of the taxpayer in query order (date, id); the
    returned state carries [realized_gains_total], the function's value. *)
Definition process_capital_gains (transactions : list transaction)
    : option cg_state :=
  fold_left
    (fun st txn => match st with
                   | Some st => process_transaction st txn
                   | None => None
                   end)
    transactions (Some cg_init).

(** *** Step 2: federal tax *)

Inductive deduction_type := ITEMIZED | STANDARD.

(** The dict [calculate_federal_tax] returns. *)
Record fed_data := {
  gross : Q;
  taxable : Q;
  fed_deduction_type : deduction_type;
  surcharge : Q;
  total : Q
}.

Definition std_deduction : Q := 10000.

(** [sum(Decimal(str(r[0])) for r in rows)] *)
Definition charitable_total (rows : list Q) : Q :=
  fold_left Qplus rows 0.

(** [itemized_total]: charitable donations plus the child deduction. *)
Definition itemized_total (gross_income : Q) (donations : list Q)
    (num_children : Z) : Q :=
  let charitable_total := charitable_total donations in
  let child_rate := Py.min (inject_Z num_children * (1 # 100)) (10 # 100) in
  let base_for_child := Py.max 0 (gross_income - charitable_total) in
  let child_deduction := base_for_child * child_rate in
  charitable_total + child_deduction.

(** The selection: [(deduction_amount, deduction_type)]. *)
Definition select_deduction (itemized_total : Q) : Q * deduction_type :=
  if Qltb std_deduction itemized_total
  then (itemized_total, ITEMIZED)
  else (std_deduction, STANDARD).

Definition fed_brackets : list (limit * Q) :=
  [ (Finite 100000, 5 # 100);
    (Finite 200000, 10 # 100);
    (Finite 300000, 15 # 100);
    (Infinity, 20 # 100) ].

(** [donations] are the amounts of the taxpayer's [charitable_donations]
    rows. *)
Definition calculate_federal_tax (donations : list Q)
    (w2_income net_capital_gain ewma_income : Q) (num_children : Z)
    : fed_data :=
  (* 1. Gross Income *)
  let gross_income := w2_income + net_capital_gain in
  (* 2. Deductions *)
  let itemized_total := itemized_total gross_income donations num_children in
  let '(deduction_amount, deduction_type) := select_deduction itemized_total in
  (* 3. Taxable Income *)
  let taxable_income := Py.max 0 (gross_income - deduction_amount) in
  (* 4. Progressive Brackets *)
  let bracket_tax := calculate_bracket_tax taxable_income fed_brackets in
  (* 5. High-Income Surcharge *)
  let surcharge :=
    if Qltb 1000000 ewma_income then gross_income * (2 # 100) else 0 in
  let total_federal := bracket_tax + surcharge in
  {| gross := gross_income;
     taxable := taxable_income;
     fed_deduction_type := deduction_type;
     surcharge := surcharge;
     total := total_federal |}.

(** *** Step 3: state tax *)

Definition tx_brackets : list (limit * Q) :=
  [ (Finite 90000, 3 # 100);
    (Finite 200000, 5 # 100);
    (Infinity, 7 # 100) ].

(** Returns [(state_tax, state_surcharge)]. *)
Definition calculate_state_tax (state : string)
    (w2_income net_capital_gain : Q) (fed_data : fed_data)
    (fed_deduction_amount : Q) : Q * Q :=
  let state_tax := 0 in
  let state_surcharge := 0 in
  if String.eqb state "California" then
    let ca_gains_tax := (6 # 100) * Py.max 0 net_capital_gain in
    let ca_wage_tax := (4 # 100) * w2_income in
    let base_tax := ca_wage_tax + ca_gains_tax in
    let state_surcharge :=
      if Qltb 0 (surcharge fed_data) then base_tax * (5 # 100)
      else state_surcharge in
    let state_tax := base_tax + state_surcharge in
    (state_tax, state_surcharge)
  else if String.eqb state "Texas" then
    let state_tax := calculate_bracket_tax (taxable fed_data) tx_brackets in
    let state_tax :=
      if Qltb 15000 fed_deduction_amount then state_tax * (99 # 100)
      else state_tax in
    (state_tax, state_surcharge)
  else (state_tax, state_surcharge).

(** *** The same steps in the Decimal context *)

(** The functions above with every [+], [-] and [*] rounded as the
    interpreter rounds it.  Comparisons, [min] and [max] return an
    operand unchanged. *)
Module Prec28.

(** [round_dollar]: [quantize] raises InvalidOperation when the result
    would need more than 28 digits. *)
Definition round_dollar (d : Q) : option Z :=
  let r := round_dollar d in
  if (Z.abs r <? 10 ^ 28)%Z then Some r else None.

Fixpoint bracket_loop (income : Q) (brackets : list (limit * Q))
    (tax : Q) (previous_limit : limit) : Q :=
  match brackets with
  | [] => tax
  | (limit, rate) :: rest =>
      if exceeds income previous_limit then
        let taxable_in_bracket :=
          match previous_limit with
          | Finite q => Dec.sub (min_limit income limit) q
          | Infinity => 0
          end in
        bracket_loop income rest
          (Dec.add tax (Dec.mul taxable_in_bracket rate)) limit
      else tax
  end.

Definition calculate_bracket_tax (income : Q) (brackets : list (limit * Q)) : Q :=
  bracket_loop income brackets 0 (Finite 0).

(** [earliest_buy['remaining'] -= match_qty] *)
Fixpoint decrement_earliest (lots : list lot) (match_qty : Q) : list lot :=
  match lots with
  | [] => []
  | b :: rest =>
      if is_open b
      then {| lot_id := lot_id b; price := price b;
              remaining := Dec.sub (remaining b) match_qty |} :: rest
      else b :: decrement_earliest rest match_qty
  end.

Fixpoint sell_loop (fuel : nat) (t_id : Z) (asset : string)
    (sell_price shares_to_sell : Q) (st : cg_state) : option cg_state :=
  match fuel with
  | O => None
  | S fuel =>
      if Qltb 0 shares_to_sell then
        let valid_buys := List.filter is_open (lots_of (portfolio st) asset) in
        match valid_buys with
        | [] =>
            Some {| portfolio := portfolio st;
                    realized_gains_total := realized_gains_total st;
                    realized_gains := realized_gains st;
                    remaining_updates := remaining_updates st;
                    warnings := warnings st ++ [asset] |}
        | earliest_buy :: _ =>
            let match_qty := Py.min shares_to_sell (remaining earliest_buy) in
            let gain :=
              Dec.mul match_qty (Dec.sub sell_price (price earliest_buy)) in
            sell_loop fuel t_id asset sell_price
              (Dec.sub shares_to_sell match_qty)
              {| portfolio :=
                   <[ asset := decrement_earliest
                                 (lots_of (portfolio st) asset) match_qty ]>
                     (portfolio st);
                 realized_gains_total :=
                   Dec.add (realized_gains_total st) gain;
                 realized_gains :=
                   realized_gains st ++
                   [ {| sell_transaction_id := t_id;
                        buy_transaction_id := lot_id earliest_buy;
                        matched_quantity := match_qty;
                        gain_amount := gain |} ];
                 remaining_updates :=
                   remaining_updates st ++
                   [ (lot_id earliest_buy,
                      Dec.sub (remaining earliest_buy) match_qty) ];
                 warnings := warnings st |}
        end
      else Some st
  end.

Definition process_transaction (st : cg_state) (txn : transaction)
    : option cg_state :=
  let asset := t_asset_id txn in
  let qty := t_quantity txn in
  let price := t_unit_price txn in
  let portfolio :=
    match portfolio st !! asset with
    | None => <[ asset := [] ]> (portfolio st)
    | Some _ => portfolio st
    end in
  match t_type txn with
  | BUY =>
      Some {| portfolio :=
                <[ asset := lots_of portfolio asset ++
                            [ {| lot_id := transaction_id txn;
                                 price := price;
                                 remaining := qty |} ] ]> portfolio;
              realized_gains_total := realized_gains_total st;
              realized_gains := realized_gains st;
              remaining_updates := remaining_updates st;
              warnings := warnings st |}
  | SELL =>
      let st := {| portfolio := portfolio;
                   realized_gains_total := realized_gains_total st;
                   realized_gains := realized_gains st;
                   remaining_updates := remaining_updates st;
                   warnings := warnings st |} in
      sell_loop (S (length (lots_of portfolio asset)))
        (transaction_id txn) asset price qty st
  end.

Definition process_capital_gains (transactions : list transaction)
    : option cg_state :=
  fold_left
    (fun st txn => match st with
                   | Some st => process_transaction st txn
                   | None => None
                   end)
    transactions (Some cg_init).

(** [num_children] is the value of [Decimal(num_children)]. *)
Definition itemized_total (gross_income : Q) (donations : list Q)
    (num_children : Q) : Q :=
  let charitable_total := Dec.sum donations in
  let child_rate := Py.min (Dec.mul num_children (1 # 100)) (10 # 100) in
  let base_for_child := Py.max 0 (Dec.sub gross_income charitable_total) in
  let child_deduction := Dec.mul base_for_child child_rate in
  Dec.add charitable_total child_deduction.

(** The result with the local [deduction_amount], which the function
    does not return. *)
Definition calculate_federal_tax (donations : list Q)
    (w2_income net_capital_gain ewma_income num_children : Q)
    : fed_data * Q :=
  (* 1. Gross Income *)
  let gross_income := Dec.add w2_income net_capital_gain in
  (* 2. Deductions *)
  let itemized_total := itemized_total gross_income donations num_children in
  let '(deduction_amount, deduction_type) := select_deduction itemized_total in
  (* 3. Taxable Income *)
  let taxable_income := Py.max 0 (Dec.sub gross_income deduction_amount) in
  (* 4. Progressive Brackets *)
  let bracket_tax := calculate_bracket_tax taxable_income fed_brackets in
  (* 5. High-Income Surcharge *)
  let surcharge :=
    if Qltb 1000000 ewma_income then Dec.mul gross_income (2 # 100) else 0 in
  let total_federal := Dec.add bracket_tax surcharge in
  ({| gross := gross_income;
      taxable := taxable_income;
      fed_deduction_type := deduction_type;
      surcharge := surcharge;
      total := total_federal |},
   deduction_amount).

Definition calculate_state_tax (state : string)
    (w2_income net_capital_gain : Q) (fed_data : fed_data)
    (fed_deduction_amount : Q) : Q * Q :=
  let state_tax := 0 in
  let state_surcharge := 0 in
  if String.eqb state "California" then
    let ca_gains_tax := Dec.mul (6 # 100) (Py.max 0 net_capital_gain) in
    let ca_wage_tax := Dec.mul (4 # 100) w2_income in
    let base_tax := Dec.add ca_wage_tax ca_gains_tax in
    let state_surcharge :=
      if Qltb 0 (surcharge fed_data) then Dec.mul base_tax (5 # 100)
      else state_surcharge in
    let state_tax := Dec.add base_tax state_surcharge in
    (state_tax, state_surcharge)
  else if String.eqb state "Texas" then
    let state_tax := calculate_bracket_tax (taxable fed_data) tx_brackets in
    let state_tax :=
      if Qltb 15000 fed_deduction_amount then Dec.mul state_tax (99 # 100)
      else state_tax in
    (state_tax, state_surcharge)
  else (state_tax, state_surcharge).
End Prec28.

(** *** Main processor loop *)

(** A row of [taxpayers] as [run_analysis_engine] selects it.  An
    amount column holds [Some q] when the conversion the code applies
    to it ([Decimal(str(v))], and [Decimal(v)] for [num_children])
    gives the finite number [q], and [None] when the conversion raises
    (NULL, or text that is no number). *)
Record taxpayer_row := {
  taxpayer_id : string;
  state : string;
  w2_income : option Q;
  ewma_income : option Q;
  num_children : option Q
}.

(** A row of [asset_transactions] as stored: the outer [None] of
    [s_remaining] is NULL, which the code reads as 0 without
    converting. *)
Record stored_transaction := {
  s_transaction_id : Z;
  s_type : transaction_type;
  s_asset_id : string;
  s_quantity : option Q;
  s_unit_price : option Q;
  s_remaining : option (option Q)
}.

(** The three conversions at the head of the loop body of
    [process_capital_gains]; [None] when one of them raises. *)
Definition read_transaction (s : stored_transaction) : option transaction :=
  match s_quantity s, s_unit_price s, s_remaining s with
  | Some qty, Some price, None =>
      Some {| transaction_id := s_transaction_id s; t_type := s_type s;
              t_asset_id := s_asset_id s; t_quantity := qty;
              t_unit_price := price; remaining_quantity := None |}
  | Some qty, Some price, Some (Some remaining) =>
      Some {| transaction_id := s_transaction_id s; t_type := s_type s;
              t_asset_id := s_asset_id s; t_quantity := qty;
              t_unit_price := price; remaining_quantity := Some remaining |}
  | _, _, _ => None
  end.

(** A taxpayer row with the query results its processing reads. *)
Record household := {
  row : taxpayer_row;
  transactions : list stored_transaction;
  donations : list (option Q)
}.

(** A row of [tax_computations]. *)
Record tax_computation := {
  federal_gross_income : Q;
  federal_taxable_income : Q;
  federal_deduction_type : deduction_type;
  federal_surcharge : Q;
  total_federal_tax : Z;
  state_surcharge : Q;
  total_state_tax : Z
}.

Inductive status := PENDING | COMPLETED | ERROR.

(** The body of the [try] block of [process_taxpayer]; the inner [None]
    is an exception, whichever statement raises it (every exception ends
    in the same [except] clause, which writes no computation), the outer
    one a FIFO loop out of fuel. *)
Definition try_process_taxpayer (h : household)
    : option (option tax_computation) :=
  match w2_income (row h), ewma_income (row h) with
  | Some w2, Some ewma =>
      (* 1. Calculate Capital Gains *)
      match mapM read_transaction (transactions h) with
      | None => Some None
      | Some transactions =>
          match Prec28.process_capital_gains transactions with
          | None => None
          | Some cg =>
              let net_capital_gain := realized_gains_total cg in
              (* 2. Calculate Federal Tax *)
              match mapM (fun amount => amount) (donations h),
                    num_children (row h) with
              | Some donations, Some num_children =>
                  let fed_res :=
                    fst (Prec28.calculate_federal_tax donations w2
                           net_capital_gain ewma num_children) in
                  (* Recover deduction amount for State logic *)
                  let deduction_amt :=
                    Dec.sub (gross fed_res) (taxable fed_res) in
                  (* 3. Calculate State Tax *)
                  let '(state_tax_raw, state_surcharge) :=
                    Prec28.calculate_state_tax (state (row h)) w2
                      net_capital_gain fed_res deduction_amt in
                  (* 4. Rounding & Persisting *)
                  match Prec28.round_dollar (total fed_res),
                        Prec28.round_dollar state_tax_raw with
                  | Some total_fed_rounded, Some total_state_rounded =>
                      Some (Some {| federal_gross_income := gross fed_res;
                                    federal_taxable_income := taxable fed_res;
                                    federal_deduction_type :=
                                      fed_deduction_type fed_res;
                                    federal_surcharge := surcharge fed_res;
                                    total_federal_tax := total_fed_rounded;
                                    state_surcharge := state_surcharge;
                                    total_state_tax := total_state_rounded |})
                  | _, _ => Some None
                  end
              | _, _ => Some None
              end
          end
      end
  | _, _ => Some None
  end.

(** The tables [process_taxpayer] writes, keyed by taxpayer id. *)
Record results := {
  tax_computations : gmap string tax_computation;
  processing_status : gmap string status
}.

(** [process_taxpayer]: the row is stored and the status set to
    COMPLETED, or the exception is logged and the status set to ERROR. *)
Definition process_taxpayer (db : results) (h : household) : option results :=
  let id := taxpayer_id (row h) in
  match try_process_taxpayer h with
  | None => None
  | Some (Some c) =>
      Some {| tax_computations := <[ id := c ]> (tax_computations db);
              processing_status := <[ id := COMPLETED ]> (processing_status db) |}
  | Some None =>
      Some {| tax_computations := tax_computations db;
              processing_status := <[ id := ERROR ]> (processing_status db) |}
  end.

(** The [for row in batch] loop of [run_analysis_engine]. *)
Definition process_batch (db : results) (batch : list household)
    : option results :=
  fold_left
    (fun db h => match db with
                 | Some db => process_taxpayer db h
                 | None => None
                 end)
    batch (Some db).

(** The tables after [initialize_db] and [ingest_file]: no computation,
    every taxpayer inserted with status PENDING. *)
Definition ingested (table : list household) : results :=
  {| tax_computations := ∅;
     processing_status :=
       fold_left (fun m h => <[ taxpayer_id (row h) := PENDING ]> m) table ∅ |}.

(** The query of [run_analysis_engine]: the taxpayers whose status is
    PENDING, in table order, at most 100 of them.  [process_taxpayer]
    updates the status of every row with the taxpayer's id, so the
    status is kept per id. *)
Definition is_pending (db : results) (h : household) : bool :=
  match processing_status db !! taxpayer_id (row h) with
  | Some PENDING => true
  | _ => false
  end.

Definition fetch_pending (table : list household) (db : results)
    : list household :=
  firstn 100 (List.filter (is_pending db) table).

(** [run_analysis_engine]: the [while True] loop, one round of fuel for
    each query; [None] when the fuel runs out. *)
Fixpoint run_analysis_engine (fuel : nat) (table : list household)
    (db : results) : option results :=
  match fuel with
  | O => None
  | S fuel =>
      match fetch_pending table db with
      | [] => Some db
      | batch =>
          match process_batch db batch with
          | Some db => run_analysis_engine fuel table db
          | None => None
          end
      end
  end.

(** *** Output *)

Record output_obj := {
  out_taxpayer_id : string;
  federal_tax : Z;
  state_tax : Z
}.

(** [write_output]: the taxpayers in rowid order, joined with
    [tax_computations]. *)
Definition write_output (taxpayers : list taxpayer_row) (db : results)
    : list output_obj :=
  omap (fun t =>
          match tax_computations db !! taxpayer_id t with
          | Some c => Some {| out_taxpayer_id := taxpayer_id t;
                              federal_tax := total_federal_tax c;
                              state_tax := total_state_tax c |}
          | None => None
          end)
       taxpayers.
End AsyncEngine.

(** ** shared_state/analysis.py *)

Module SharedState.
Import SingleThread.

Section Worker.
Context {F : Type} `{PyFloat F}.
Local Open Scope py_scope.

Local Notation "0.0" := (f_of_Z 0).

(** What phase 1 of [calculate_tax_for_person] fetches. *)
Record inputs := {
  state : string;
  w2_income : F;
  num_children : Z;
  history_rows : list (Z * F);
  purchases : list (asset_row F);
  sales : list (asset_row F);
  donation_rows : list F
}.

(** What phase 3 writes. *)
Record outputs := {
  capital_gains : capital_gains_result F;
  ewma_income : F;
  federal : federal_calculations F;
  state_row : state_calculations F;
  liability : final_liability
}.

(** Phase 2 and the rows of phase 3; [None] when [round] raises.  The
    FIFO loops and the two bracket ladders are, statement for
    statement, those of single_thread/analysis.py. *)
Definition calculate_tax_for_person (i : inputs) : option outputs :=
  (* A. Capital Gains (FIFO) *)
  let cg := calculate_capital_gains (purchases i) (sales i) in
  let realized_gains := net_capital_gain cg in
  (* B. EWMA Calculation *)
  let history_map := history_of_rows (history_rows i) in
  let e_val := history_get history_map (-5) in
  let alpha := f_lit 6 10 in
  let ewma_income :=
    fold_left
      (fun e_val k =>
         let val := history_get history_map k in
         (alpha * val) + ((f_of_Z 1 - alpha) * e_val))
      [-4; -3; -2; -1] e_val in
  (* C. Federal Tax Logic *)
  let w2_income := w2_income i in
  let net_cap_gain := realized_gains in
  let gross_income := w2_income + net_cap_gain in
  let surcharge :=
    if f_of_Z 1000000 <? ewma_income
    then f_lit 2 100 * gross_income else 0.0 in
  let std_deduction := f_of_Z 10000 in
  let total_donations := fold_left f_add (donation_rows i) (f_of_Z 0) in
  let taxable_base_for_child := gross_income - total_donations in
  let child_deduction :=
    if f_of_Z 0 <? taxable_base_for_child then
      let rate := f_of_Z (Z.min (num_children i) 10) * f_lit 1 100 in
      rate * taxable_base_for_child
    else 0.0 in
  let itemized_total := total_donations + child_deduction in
  let '(deduction_val, method) :=
    if std_deduction <? itemized_total
    then (itemized_total, Itemized)
    else (std_deduction, Standard) in
  let taxable_income := Py.max 0.0 (gross_income - deduction_val) in
  let fed_tax := federal_brackets taxable_income in
  let final_federal_tax := fed_tax + surcharge in
  (* D. State Tax Logic *)
  let state := state i in
  let '(final_state_tax, ca_basis, tx_basis) :=
    if String.eqb state "California" then
      let ca_basis :=
        (f_lit 4 100 * w2_income) + (f_lit 6 100 * Py.max 0.0 net_cap_gain) in
      let final_state_tax := ca_basis in
      let final_state_tax :=
        if f_of_Z 0 <? surcharge
        then final_state_tax * f_lit 105 100 else final_state_tax in
      (final_state_tax, ca_basis, 0.0)
    else if String.eqb state "Texas" then
      let tx_basis := taxable_income in
      let tx_tax := texas_brackets tx_basis in
      let tx_tax :=
        if f_of_Z 15000 <? deduction_val
        then tx_tax * f_lit 99 100 else tx_tax in
      (tx_tax, 0.0, tx_basis)
    else (0.0, 0.0, 0.0) in
  match f_round final_federal_tax, f_round final_state_tax with
  | Some fed_rounded, Some state_rounded =>
      Some {| capital_gains := cg;
              ewma_income := ewma_income;
              federal :=
                {| gross_income := gross_income;
                   surcharge_amount := surcharge;
                   standard_deduction_val := std_deduction;
                   itemized_deduction_val := itemized_total;
                   fc_deduction_method := method;
                   taxable_income := taxable_income;
                   bracket_tax := fed_tax;
                   final_federal_tax := final_federal_tax |};
              state_row :=
                {| state_name := state;
                   california_gross_basis := Some ca_basis;
                   texas_taxable_basis := Some tx_basis;
                   final_state_tax := final_state_tax |};
              liability :=
                {| total_federal_tax := fed_rounded;
                   total_state_tax := state_rounded |} |}
  | _, _ => None
  end.
End Worker.
Arguments inputs F : clear implicits.
Arguments outputs F : clear implicits.
End SharedState.


(** ** The specification's formulas *)

Module Spec.
Import AsyncEngine.
Local Open Scope Q_scope.

(** *** Income smoother (section 4.2) *)

Definition alpha : Q := 6 # 10.



(** *** Marginal brackets (sections 4.3 and 4.4) *)

(** The portion of [income] within the bracket from [lo] to [hi]. *)
Definition portion (lo hi income : Q) : Q := Qmax 0 (Qmin income hi - lo).

(** The portion of [income] within the unbounded bracket above [lo]. *)
Definition portion_above (lo income : Q) : Q := Qmax 0 (income - lo).


Definition texas_bracket_tax (taxable_income : Q) : Q :=
  (3 # 100) * portion 0 90000 taxable_income
  + (5 # 100) * portion 90000 200000 taxable_income
  + (7 # 100) * portion_above 200000 taxable_income.

(** *** Final rounding (section 4.5) *)

(** [n] is [x] rounded half-up: a nearest integer, and at a tie the one
    away from zero. *)
Definition rounds_half_up (x : Q) (n : Z) : Prop :=
  Qabs (inject_Z n - x) <= 1 # 2 /\
  (Qabs (inject_Z n - x) == 1 # 2 -> Qabs x < Qabs (inject_Z n)).

(** *** FIFO matching (section 4.1) *)

(** An open BUY lot, in the one chronological sequence of the household. *)
Record open_lot := {
  o_asset : string;
  o_id : Z;
  o_price : Q;
  o_remaining : Q
}.

(** The lots of [asset] with [remaining_quantity > 0]. *)
Definition open_lots_of (asset : string) (lots : list open_lot) : list open_lot :=
  List.filter
    (fun l => String.eqb (o_asset l) asset && Qltb 0 (o_remaining l)) lots.

(** The lot with the smallest id. *)
Fixpoint smallest_id (lots : list open_lot) : option open_lot :=
  match lots with
  | [] => None
  | l :: rest =>
      match smallest_id rest with
      | None => Some l
      | Some m => if (o_id l <=? o_id m)%Z then Some l else Some m
      end
  end.

Definition earliest_open (asset : string) (lots : list open_lot) : option open_lot :=
  smallest_id (open_lots_of asset lots).

(** Decrement the remaining quantity of the lot [id] by [matched]. *)
Definition decrement (id : Z) (matched : Q) (lots : list open_lot) : list open_lot :=
  map (fun l =>
         if (o_id l =? id)%Z
         then {| o_asset := o_asset l; o_id := o_id l; o_price := o_price l;
                 o_remaining := o_remaining l - matched |}
         else l)
      lots.

(** Steps 2 and 3 for one SELL: match until [remaining == 0] or no open
    lot of the asset remains.  Every round closes a lot or ends the
    sale, so [length lots] rounds always reach the end. *)
Fixpoint match_sell (rounds : nat) (sell : transaction) (remaining : Q)
    (lots : list open_lot) : list open_lot * list realized_gain :=
  match rounds with
  | O => (lots, [])
  | S rounds =>
      if Qeq_bool remaining 0 then (lots, [])
      else
        match earliest_open (t_asset_id sell) lots with
        | None => (lots, [])
        | Some lot =>
            let matched := Qmin remaining (o_remaining lot) in
            let '(lots', records) :=
              match_sell rounds sell (remaining - matched)
                (decrement (o_id lot) matched lots) in
            (lots',
             {| sell_transaction_id := transaction_id sell;
                buy_transaction_id := o_id lot;
                matched_quantity := matched;
                gain_amount := matched * (t_unit_price sell - o_price lot) |}
             :: records)
        end
  end.

Definition fifo_step (st : list open_lot * list realized_gain)
    (txn : transaction) : list open_lot * list realized_gain :=
  let '(lots, records) := st in
  match t_type txn with
  | BUY =>
      (lots ++ [ {| o_asset := t_asset_id txn;
                    o_id := transaction_id txn;
                    o_price := t_unit_price txn;
                    o_remaining := t_quantity txn |} ],
       records)
  | SELL =>
      let '(lots', new) := match_sell (length lots) txn (t_quantity txn) lots in
      (lots', records ++ new)
  end.

(** The lots and the RealizedGainRecords after a chronological history. *)
Definition fifo (txns : list transaction) : list open_lot * list realized_gain :=
  fold_left fifo_step txns ([], []).

(** The sum of the per-match gains. *)
Definition sum_gains (records : list realized_gain) : Q :=
  fold_left (fun acc r => acc + gain_amount r) records 0.

Definition net_realized_gain (txns : list transaction) : Q :=
  sum_gains (snd (fifo txns)).
End Spec.

(** ** The FIFO loop as one pass over the lots of the asset

    Auxiliary definitions for the proofs about [AsyncEngine.sell_loop]:
    the loop rescans [portfolio[asset]] from its head at every round;
    [walk] visits each lot once.  [sell_loop_is_walk] below proves that
    they agree. *)

Module Fifo.
Import AsyncEngine.
Local Open Scope Q_scope.

(** The row the loop inserts when it matches [match_qty] shares of [b]. *)
Definition match_record (t_id : Z) (sell_price : Q) (b : lot) (match_qty : Q)
    : realized_gain :=
  {| sell_transaction_id := t_id;
     buy_transaction_id := lot_id b;
     matched_quantity := match_qty;
     gain_amount := match_qty * (sell_price - price b) |}.

(** The lot [b] after [b['remaining'] -= match_qty]. *)
Definition decremented (b : lot) (match_qty : Q) : lot :=
  {| lot_id := lot_id b; price := price b;
     remaining := remaining b - match_qty |}.

(** The lots after the loop, the rows it inserts, and the shares left
    unsold. *)
Fixpoint walk (t_id : Z) (sell_price shares : Q) (lots : list lot)
    : list lot * list realized_gain * Q :=
  match lots with
  | [] => ([], [], shares)
  | b :: rest =>
      if Qltb 0 shares then
        if is_open b then
          let match_qty := Py.min shares (remaining b) in
          let '(rest', records, unsold) :=
            walk t_id sell_price (shares - match_qty) rest in
          (decremented b match_qty :: rest',
           match_record t_id sell_price b match_qty :: records,
           unsold)
        else
          let '(rest', records, unsold) := walk t_id sell_price shares rest in
          (b :: rest', records, unsold)
      else (b :: rest, [], shares)
  end.

(** A lot with no share left to match. *)
Definition closed (b : lot) : Prop := is_open b = false.


(** The shares the rows account for. *)
Definition matched (records : list realized_gain) : Q :=
  fold_right (fun r acc => matched_quantity r + acc) 0 records.



(** The fold of [process_capital_gains] from any state. *)
Definition run_from (st : cg_state) (txns : list transaction) : option cg_state :=
  fold_left
    (fun st txn => match st with
                   | Some st => process_transaction st txn
                   | None => None
                   end)
    txns (Some st).




End Fifo.

(** ** Example households *)

Module Examples.
Local Open Scope Q_scope.

(** A row of [asset_purchases] or [asset_sales] with integer amounts. *)
Definition asset_row_of {F : Type} `{PyFloat F} (id : Z) (asset : string)
    (quantity unit_price : Z) : SingleThread.asset_row F :=
  {| SingleThread.row_id := id;
     SingleThread.asset_id := asset;
     SingleThread.date := "2024-01-01";
     SingleThread.quantity := f_of_Z quantity;
     SingleThread.unit_price := f_of_Z unit_price |}.

Definition transaction_of (id : Z) (type : AsyncEngine.transaction_type)
    (asset : string) (quantity unit_price : Q) : AsyncEngine.transaction :=
  {| AsyncEngine.transaction_id := id;
     AsyncEngine.t_type := type;
     AsyncEngine.t_asset_id := asset;
     AsyncEngine.t_quantity := quantity;
     AsyncEngine.t_unit_price := unit_price;
     AsyncEngine.remaining_quantity :=
       match type with
       | AsyncEngine.BUY => Some quantity
       | AsyncEngine.SELL => None
       end |}.

(** Section 8: BUYs of 100 at 10 and of 50 at 20, then a SELL of 120 at 30. *)
Definition fifo_history : list AsyncEngine.transaction :=
  [ transaction_of 1 AsyncEngine.BUY "ACME" 100 10;
    transaction_of 2 AsyncEngine.BUY "ACME" 50 20;
    transaction_of 3 AsyncEngine.SELL "ACME" 120 30 ].

(** Two assets: 10 shares of A bought at 5, 10 shares of B bought at 100,
    the 10 shares of B sold at 150. *)
Definition two_asset_purchases {F : Type} `{PyFloat F}
    : list (SingleThread.asset_row F) :=
  [ asset_row_of 1 "A" 10 5; asset_row_of 2 "B" 10 100 ].

Definition two_asset_sales {F : Type} `{PyFloat F}
    : list (SingleThread.asset_row F) :=
  [ asset_row_of 1 "B" 10 150 ].

Definition two_asset_history : list AsyncEngine.transaction :=
  [ transaction_of 1 AsyncEngine.BUY "A" 10 5;
    transaction_of 2 AsyncEngine.BUY "B" 10 100;
    transaction_of 3 AsyncEngine.SELL "B" 10 150 ].

(** Overselling: 10 shares bought at 5, 15 sold at 10. *)
Definition oversold_purchases {F : Type} `{PyFloat F}
    : list (SingleThread.asset_row F) :=
  [ asset_row_of 1 "A" 10 5 ].

Definition oversold_sales {F : Type} `{PyFloat F}
    : list (SingleThread.asset_row F) :=
  [ asset_row_of 1 "A" 15 10 ].

Definition oversold_history : list AsyncEngine.transaction :=
  [ transaction_of 1 AsyncEngine.BUY "A" 10 5;
    transaction_of 2 AsyncEngine.SELL "A" 15 10 ].


(** A household with wages only, for the float variants. *)
Definition wage_earner {F : Type} `{PyFloat F} (state : string) (w2 : Z)
    : SingleThread.taxpayer F :=
  {| SingleThread.state := state;
     SingleThread.w2_income := f_of_Z w2;
     SingleThread.num_children := 0;
     SingleThread.income_history := [];
     SingleThread.asset_purchases := [];
     SingleThread.asset_sales := [];
     SingleThread.total_donations := None |}.

Definition wage_earner_inputs {F : Type} `{PyFloat F} (state : string) (w2 : Z)
    : SharedState.inputs F :=
  {| SharedState.state := state;
     SharedState.w2_income := f_of_Z w2;
     SharedState.num_children := 0;
     SharedState.history_rows := [];
     SharedState.purchases := [];
     SharedState.sales := [];
     SharedState.donation_rows := [] |}.

(** A transaction as [insert_taxpayer] stores it. *)
Definition stored (t : AsyncEngine.transaction)
    : AsyncEngine.stored_transaction :=
  {| AsyncEngine.s_transaction_id := AsyncEngine.transaction_id t;
     AsyncEngine.s_type := AsyncEngine.t_type t;
     AsyncEngine.s_asset_id := AsyncEngine.t_asset_id t;
     AsyncEngine.s_quantity := Some (AsyncEngine.t_quantity t);
     AsyncEngine.s_unit_price := Some (AsyncEngine.t_unit_price t);
     AsyncEngine.s_remaining :=
       option_map Some (AsyncEngine.remaining_quantity t) |}.

(** The same household for the async engine. *)
Definition wage_earner_household (id state : string) (w2 : Q)
    : AsyncEngine.household :=
  {| AsyncEngine.row :=
       {| AsyncEngine.taxpayer_id := id;
          AsyncEngine.state := state;
          AsyncEngine.w2_income := Some w2;
          AsyncEngine.ewma_income := Some 0;
          AsyncEngine.num_children := Some 0 |};
     AsyncEngine.transactions := [];
     AsyncEngine.donations := [] |}.

(** A Texas household with donations of 20000 and the history of section 8. *)
Definition texas_household : AsyncEngine.household :=
  {| AsyncEngine.row :=
       {| AsyncEngine.taxpayer_id := "TX-1";
          AsyncEngine.state := "Texas";
          AsyncEngine.w2_income := Some 120000;
          AsyncEngine.ewma_income := Some 90000;
          AsyncEngine.num_children := Some 2 |};
     AsyncEngine.transactions := map stored fifo_history;
     AsyncEngine.donations := [Some 15000; Some 5000] |}.

(** A Texas household with wages of 1000000 and two donations, of
    15000 and of 1e-23. *)
Definition texas_donor : AsyncEngine.household :=
  {| AsyncEngine.row :=
       {| AsyncEngine.taxpayer_id := "TX-3";
          AsyncEngine.state := "Texas";
          AsyncEngine.w2_income := Some 1000000;
          AsyncEngine.ewma_income := Some 0;
          AsyncEngine.num_children := Some 0 |};
     AsyncEngine.transactions := [];
     AsyncEngine.donations := [Some 15000; Some (Qmake 1 (10 ^ 23))] |}.

(** A table of two taxpayers. *)
Definition two_households : list AsyncEngine.household :=
  [wage_earner_household "CA-1" "California" 50000; texas_household].

Definition empty_results : AsyncEngine.results :=
  {| AsyncEngine.tax_computations := ∅;
     AsyncEngine.processing_status := ∅ |}.
End Examples.

(** ** Query results shared by the variants *)




(** * Properties *)

Local Open Scope Q_scope.

(** ** Comparisons and arithmetic on [Q] *)

Lemma Qltb_true (x y : Q) : Qltb x y = true <-> x < y.
Proof.
  unfold Qltb. rewrite negb_true_iff, <- not_true_iff_false, Qle_bool_iff.
  split; [apply Qnot_le_lt | apply Qlt_not_le].
Qed.

Lemma Qltb_false (x y : Q) : Qltb x y = false <-> y <= x.
Proof. unfold Qltb. rewrite negb_false_iff. apply Qle_bool_iff. Qed.

Lemma Qltb_comp (x x' y y' : Q) : x == x' -> y == y' -> Qltb x y = Qltb x' y'.
Proof.
  intros Hx Hy. apply eq_true_iff_eq.
  rewrite !Qltb_true, Hx, Hy. reflexivity.
Qed.

(** Case analysis on the comparisons, minima and maxima of a goal,
    dropping at once the cases linear arithmetic refutes. *)
Ltac qbool1 :=
  match goal with
  | |- context [Qltb ?a ?b] =>
      let H := fresh "Hlt" in
      destruct (Qltb a b) eqn:H;
      [apply Qltb_true in H | apply Qltb_false in H];
      try (exfalso; lra)
  end.
Ltac qbool := repeat qbool1.

Ltac qmin1 :=
  match goal with
  | |- context [Qmin ?a ?b] =>
      let H := fresh "Hmin" in
      let m := fresh "m" in
      pose proof (Q.min_spec a b) as H;
      revert H; generalize (Qmin a b); intros m H;
      destruct H as [[? H]|[? H]]; try (exfalso; lra)
  end.
Ltac qmax1 :=
  match goal with
  | |- context [Qmax ?a ?b] =>
      let H := fresh "Hmax" in
      let m := fresh "m" in
      pose proof (Q.max_spec a b) as H;
      revert H; generalize (Qmax a b); intros m H;
      destruct H as [[? H]|[? H]]; try (exfalso; lra)
  end.
Ltac qminmax := repeat qmin1; repeat qmax1.

Ltac qsimp :=
  cbn -[Qltb Qmax Qmin Qplus Qmult Qminus Qle_bool Qeq_bool Qopp];
  unfold inject_Z.


Lemma py_max_Qmax (a b : Q) : Py.max a b == Qmax a b.
Proof. unfold Py.max. qsimp. qbool; qminmax; lra. Qed.

Lemma py_max_nonneg (x : Q) : 0 <= Py.max 0 x.
Proof. unfold Py.max. qsimp. qbool; lra. Qed.

(** ** Bracket ladders *)




Lemma single_tx_brackets_marginal (income : Q) :
  0 <= income ->
  SingleThread.texas_brackets income == Spec.texas_bracket_tax income.
Proof.
  intros Hx.
  unfold SingleThread.texas_brackets, Spec.texas_bracket_tax,
    Spec.portion, Spec.portion_above, Py.min.
  qsimp. repeat (qbool1; qsimp).
  all: qminmax; lra.
Qed.

Lemma single_taxable_income_nonneg (w2 : Q) (n : Z) (ncg ewma don : option Q) :
  0 <= SingleThread.taxable_income
         (SingleThread.calculate_federal_tax w2 n ncg ewma don).
Proof.
  unfold SingleThread.calculate_federal_tax.
  destruct (f_ltb _ _) in |- *; cbn [SingleThread.taxable_income];
    apply py_max_nonneg.
Qed.


(** ** Deduction selection *)






(** ** Surcharge *)


(** ** Rounding *)

Lemma round_dollar_comp (x y : Q) :
  x == y -> AsyncEngine.round_dollar x = AsyncEngine.round_dollar y.
Proof.
  intros Hxy. unfold AsyncEngine.round_dollar.
  rewrite (Qltb_comp x y 0 0 Hxy (Qeq_refl 0)).
  assert (Hfl : Qfloor (Qabs x + (1 # 2)) = Qfloor (Qabs y + (1 # 2)))
    by (apply Qfloor_comp; rewrite Hxy; reflexivity).
  rewrite Hfl. reflexivity.
Qed.

(** ** California *)

Lemma async_california_formula (w2 ncg : Q) (fed : AsyncEngine.fed_data) (ded : Q) :
  fst (AsyncEngine.calculate_state_tax "California" w2 ncg fed ded)
  == ((4 # 100) * w2 + (6 # 100) * Qmax 0 ncg)
     * (if Qltb 0 (AsyncEngine.surcharge fed) then 105 # 100 else 1).
Proof.
  unfold AsyncEngine.calculate_state_tax.
  cbn [String.eqb Ascii.eqb Bool.eqb fst].
  destruct (Qltb 0 (AsyncEngine.surcharge fed));
    rewrite py_max_Qmax; ring.
Qed.

(** C10. The California state tax is determined by w2_income, the net
    capital gain and whether the federal surcharge is positive: two runs
    that agree on these three give the same state tax and the same
    rounded total, whatever the other federal results (deduction type,
    taxable income, totals) and the deduction amount, in the async
    engine and, for every number type, in the float variant. *)
Theorem california_tax_noninterference :
  (forall (w2 w2' ncg ncg' : Q) (fed fed' : AsyncEngine.fed_data) (ded ded' : Q),
     w2 == w2' -> ncg == ncg' ->
     (0 < AsyncEngine.surcharge fed <-> 0 < AsyncEngine.surcharge fed') ->
     let tax := fst (AsyncEngine.calculate_state_tax "California" w2 ncg fed ded) in
     let tax' := fst (AsyncEngine.calculate_state_tax "California" w2' ncg' fed' ded') in
     tax == tax' /\
     AsyncEngine.round_dollar tax = AsyncEngine.round_dollar tax') /\
  (forall (F : Type) (PF : PyFloat F) (w2 : F) (ncg : option F)
          (fc fc' : SingleThread.federal_calculations F),
     f_ltb (f_of_Z 0) (SingleThread.surcharge_amount fc)
     = f_ltb (f_of_Z 0) (SingleThread.surcharge_amount fc') ->
     SingleThread.state_branch "California" w2 ncg fc
     = SingleThread.state_branch "California" w2 ncg fc' /\
     f_round (snd (SingleThread.state_branch "California" w2 ncg fc))
     = f_round (snd (SingleThread.state_branch "California" w2 ncg fc'))).
Proof.
  split.
  - intros w2 w2' ncg ncg' fed fed' ded ded' Hw Hg Hs tax tax'.
    assert (Heq : tax == tax').
    { unfold tax, tax'. rewrite !async_california_formula.
      assert (Hb : Qltb 0 (AsyncEngine.surcharge fed)
                   = Qltb 0 (AsyncEngine.surcharge fed'))
        by (apply eq_true_iff_eq; rewrite !Qltb_true; exact Hs).
      rewrite Hb, Hw, Hg. reflexivity. }
    split; [exact Heq | apply round_dollar_comp; exact Heq].
  - intros F PF w2 ncg fc fc' Hs.
    assert (Heq : SingleThread.state_branch "California" w2 ncg fc
                  = SingleThread.state_branch "California" w2 ncg fc').
    { unfold SingleThread.state_branch.
      cbn [String.eqb Ascii.eqb Bool.eqb]. rewrite Hs. reflexivity. }
    split; [exact Heq | rewrite Heq; reflexivity].
Qed.

(** The rounded California totals of two async households that agree on
    wages and gains, one without donations or children and below the
    surcharge gate, the other with both and none either. *)
Lemma california_tax_noninterference_witness :
  AsyncEngine.round_dollar
    (fst (AsyncEngine.calculate_state_tax "California" 80000 5000
            (AsyncEngine.calculate_federal_tax [] 80000 5000 900000 0) 10000))
  = AsyncEngine.round_dollar
      (fst (AsyncEngine.calculate_state_tax "California" 80000 5000
              (AsyncEngine.calculate_federal_tax [20000] 80000 5000 70000 3)
              21950)) /\
  f_round (snd (SingleThread.state_branch "California" 80000%float
                  (Some 5000%float)
                  (SingleThread.calculate_federal_tax 80000%float 0
                     (Some 5000%float) (Some 900000%float) None)))
  = f_round (snd (SingleThread.state_branch "California" 80000%float
                    (Some 5000%float)
                    (SingleThread.calculate_federal_tax 80000%float 3
                       (Some 5000%float) (Some 70000%float)
                       (Some 20000%float)))).
Proof.
  destruct california_tax_noninterference as [Hasync Hsingle].
  split.
  - apply Hasync; [reflexivity | reflexivity |].
    vm_compute. split; intros Hf; discriminate Hf.
  - apply Hsingle. vm_compute. reflexivity.
Defined.

(** ** Income smoother *)

(** ** The FIFO loop of the async engine *)

Section SellLoop.
Import AsyncEngine Fifo.

Lemma lots_of_insert_eq (p : gmap string (list lot)) (a : string) (l : list lot) :
  lots_of (<[ a := l ]> p) a = l.
Proof. unfold lots_of. rewrite lookup_insert_eq. reflexivity. Qed.

Lemma lots_of_insert_ne (p : gmap string (list lot)) (a a' : string) (l : list lot) :
  a <> a' -> lots_of (<[ a := l ]> p) a' = lots_of p a'.
Proof. intros Hne. unfold lots_of. rewrite lookup_insert_ne by exact Hne. reflexivity. Qed.

Lemma filter_open_closed (pre rest : list lot) :
  Forall closed pre ->
  List.filter is_open (pre ++ rest) = List.filter is_open rest.
Proof.
  induction 1 as [|b pre Hb _ IH]; [reflexivity|].
  cbn [app List.filter]. rewrite Hb. exact IH.
Qed.

Lemma decrement_earliest_closed (pre rest : list lot) (m : Q) :
  Forall closed pre ->
  decrement_earliest (pre ++ rest) m = pre ++ decrement_earliest rest m.
Proof.
  induction 1 as [|b pre Hb _ IH]; [reflexivity|].
  cbn [app decrement_earliest]. rewrite Hb, IH. reflexivity.
Qed.

Lemma walk_done (t_id : Z) (sell_price shares : Q) (lots : list lot) :
  Qltb 0 shares = false ->
  walk t_id sell_price shares lots = (lots, [], shares).
Proof. intros Hs. destruct lots as [|b rest]; cbn [walk]; rewrite ?Hs; reflexivity. Qed.

(** The loop of one SELL ends within [length lots + 1] rounds and does
    what [walk] does to the lots of the asset not yet looked at. *)
Lemma sell_loop_is_walk (t_id : Z) (asset : string) (sell_price : Q)
    (lots : list lot) :
  forall (pre : list lot) (fuel : nat) (shares : Q) (st : cg_state),
    lots_of (portfolio st) asset = pre ++ lots ->
    Forall closed pre ->
    (length lots < fuel)%nat ->
    exists st',
      sell_loop fuel t_id asset sell_price shares st = Some st' /\
      let '(lots', records, unsold) := walk t_id sell_price shares lots in
      lots_of (portfolio st') asset = pre ++ lots' /\
      (forall a, a <> asset ->
                 lots_of (portfolio st') a = lots_of (portfolio st) a) /\
      realized_gains st' = realized_gains st ++ records /\
      realized_gains_total st'
      = fold_left (fun acc r => acc + gain_amount r) records
          (realized_gains_total st) /\
      warnings st' = warnings st ++ (if Qltb 0 unsold then [asset] else []).
Proof.
  induction lots as [|b rest IH]; intros pre fuel shares st Hlots Hpre Hfuel.
  - destruct fuel as [|fuel]; [inversion Hfuel|].
    cbn [sell_loop walk]. destruct (Qltb 0 shares) eqn:Hs.
    + rewrite Hlots, filter_open_closed by exact Hpre. cbn [List.filter].
      eexists. split; [reflexivity|]. cbn [portfolio realized_gains
        realized_gains_total warnings].
      rewrite !app_nil_r in *.
      repeat split; try assumption; reflexivity.
    + exists st. split; [reflexivity|]. rewrite !app_nil_r in *.
      repeat split; try assumption; reflexivity.
  - destruct fuel as [|fuel]; [inversion Hfuel|].
    cbn [length] in Hfuel. apply Nat.succ_lt_mono in Hfuel.
    cbn [walk]. destruct (Qltb 0 shares) eqn:Hs.
    2:{ exists st. cbn [sell_loop]. rewrite Hs. split; [reflexivity|].
        rewrite !app_nil_r. repeat split; try assumption; reflexivity. }
    destruct (is_open b) eqn:Hb.
    2:{ destruct (IH (pre ++ [b]) (S fuel) shares st) as (st' & Hrun & Hres).
        - rewrite <- app_assoc. exact Hlots.
        - apply Forall_app. split; [exact Hpre|]. constructor; [exact Hb|constructor].
        - lia.
        - exists st'. split; [exact Hrun|].
          destruct (walk t_id sell_price shares rest) as [[rest' records] unsold].
          rewrite <- app_assoc in Hres. exact Hres. }
    cbn [sell_loop]. rewrite Hs, Hlots, filter_open_closed by exact Hpre.
    cbn [List.filter]. rewrite Hb.
    rewrite decrement_earliest_closed by exact Hpre.
    cbn [decrement_earliest]. rewrite Hb.
    set (m := Py.min shares (remaining b)).
    fold (decremented b m). fold (match_record t_id sell_price b m).
    set (st1 := {| portfolio := _ |}).
    assert (Hst1 : lots_of (portfolio st1) asset = (pre ++ [decremented b m]) ++ rest).
    { unfold st1. cbn [portfolio]. rewrite lots_of_insert_eq, <- app_assoc.
      reflexivity. }
    assert (Hother : forall a, a <> asset ->
              lots_of (portfolio st1) a = lots_of (portfolio st) a).
    { intros a Ha. unfold st1. cbn [portfolio].
      apply lots_of_insert_ne. congruence. }
    destruct (Qltb (remaining b) shares) eqn:Hmin.
    + (* the lot is exhausted *)
      assert (Hm : m = remaining b) by (unfold m, Py.min; cbn [f_ltb Q_exact]; rewrite Hmin; reflexivity).
      destruct (IH (pre ++ [decremented b m]) fuel (shares - m) st1)
        as (st' & Hrun & Hres); [exact Hst1| |exact Hfuel|].
      { apply Forall_app. split; [exact Hpre|]. constructor; [|constructor].
        unfold closed, is_open, decremented. cbn [remaining]. rewrite Hm.
        apply Qltb_false. lra. }
      exists st'. split; [exact Hrun|].
      destruct (walk t_id sell_price (shares - m) rest) as [[rest' records] unsold].
      destruct Hres as (H1 & H2 & H3 & H4 & H5).
      rewrite <- app_assoc in H1.
      split; [exact H1|]. split.
      { intros a Ha. rewrite H2 by exact Ha. apply Hother. exact Ha. }
      split; [rewrite H3; unfold st1; cbn [realized_gains];
              rewrite <- app_assoc; reflexivity|].
      split; [rewrite H4; reflexivity | exact H5].
    + (* the sale is complete *)
      assert (Hm : m = shares) by (unfold m, Py.min; cbn [f_ltb Q_exact]; rewrite Hmin; reflexivity).
      assert (Hdone : Qltb 0 (shares - m) = false)
        by (rewrite Hm; apply Qltb_false; lra).
      rewrite (walk_done _ _ _ _ Hdone).
      exists st1. split.
      { destruct fuel as [|fuel]; [inversion Hfuel|].
        cbn [sell_loop]. rewrite Hdone. reflexivity. }
      rewrite <- app_assoc in Hst1. rewrite Hdone, app_nil_r.
      split; [exact Hst1|]. split; [exact Hother|].
      repeat split; reflexivity.
Qed.
End SellLoop.

Section Transactions.
Import AsyncEngine Fifo.

(** [if asset not in portfolio: portfolio[asset] = []] changes no list. *)
Lemma lots_of_ensure (p : gmap string (list lot)) (asset a : string) :
  lots_of (match p !! asset with
           | None => <[ asset := [] ]> p
           | Some _ => p
           end) a
  = lots_of p a.
Proof.
  destruct (p !! asset) eqn:Hp; [reflexivity|].
  destruct (decide (asset = a)) as [->|Hne].
  - rewrite lots_of_insert_eq. unfold lots_of. rewrite Hp. reflexivity.
  - apply lots_of_insert_ne. exact Hne.
Qed.

(** A BUY appends its lot to the sequence of its asset. *)
Lemma process_buy (st : cg_state) (txn : transaction) :
  t_type txn = BUY ->
  exists st',
    process_transaction st txn = Some st' /\
    lots_of (portfolio st') (t_asset_id txn)
    = lots_of (portfolio st) (t_asset_id txn)
      ++ [ {| lot_id := transaction_id txn; price := t_unit_price txn;
              remaining := t_quantity txn |} ] /\
    (forall a, a <> t_asset_id txn ->
               lots_of (portfolio st') a = lots_of (portfolio st) a) /\
    realized_gains st' = realized_gains st /\
    realized_gains_total st' = realized_gains_total st /\
    warnings st' = warnings st.
Proof.
  intros Hty. unfold process_transaction. rewrite Hty.
  eexists. split; [reflexivity|]. cbn [portfolio realized_gains
    realized_gains_total warnings].
  rewrite lots_of_insert_eq, lots_of_ensure.
  split; [reflexivity|]. split; [|repeat split; reflexivity].
  intros a Ha. rewrite lots_of_insert_ne by congruence. apply lots_of_ensure.
Qed.

(** A SELL runs [walk] on the sequence of its asset and touches no
    other. *)
Lemma process_sell (st : cg_state) (txn : transaction) :
  t_type txn = SELL ->
  exists st',
    process_transaction st txn = Some st' /\
    let '(lots', records, unsold) :=
      walk (transaction_id txn) (t_unit_price txn) (t_quantity txn)
        (lots_of (portfolio st) (t_asset_id txn)) in
    lots_of (portfolio st') (t_asset_id txn) = lots' /\
    (forall a, a <> t_asset_id txn ->
               lots_of (portfolio st') a = lots_of (portfolio st) a) /\
    realized_gains st' = realized_gains st ++ records /\
    realized_gains_total st'
    = fold_left (fun acc r => acc + gain_amount r) records
        (realized_gains_total st) /\
    warnings st'
    = warnings st ++ (if Qltb 0 unsold then [t_asset_id txn] else []).
Proof.
  intros Hty. unfold process_transaction. rewrite Hty.
  set (p := match portfolio st !! t_asset_id txn with
            | None => _ | Some _ => _ end).
  set (st0 := {| portfolio := p |}).
  destruct (sell_loop_is_walk (transaction_id txn) (t_asset_id txn)
              (t_unit_price txn) (lots_of p (t_asset_id txn)) []
              (S (length (lots_of p (t_asset_id txn)))) (t_quantity txn) st0)
    as (st' & Hrun & Hres); [reflexivity|constructor|lia|].
  exists st'. split; [exact Hrun|].
  unfold p in Hres. rewrite lots_of_ensure in Hres.
  destruct (walk _ _ _ _) as [[lots' records] unsold].
  destruct Hres as (H1 & H2 & H3 & H4 & H5).
  split; [exact H1|]. split; [|repeat split; assumption].
  intros a Ha. rewrite H2 by exact Ha. unfold st0. cbn [portfolio].
  apply lots_of_ensure.
Qed.

Lemma process_transaction_total (st : cg_state) (txn : transaction) :
  exists st', process_transaction st txn = Some st'.
Proof.
  destruct (t_type txn) eqn:Hty.
  - destruct (process_buy st txn Hty) as (st' & Hrun & _). eauto.
  - destruct (process_sell st txn Hty) as (st' & Hrun & _). eauto.
Qed.

Lemma run_from_total (txns : list transaction) :
  forall st, exists st', run_from st txns = Some st'.
Proof.
  induction txns as [|txn txns IH]; intros st.
  - exists st. reflexivity.
  - destruct (process_transaction_total st txn) as (st1 & H1).
    destruct (IH st1) as (st' & H'). exists st'.
    unfold run_from in *. cbn [fold_left]. rewrite H1. exact H'.
Qed.

(** The matcher returns for every transaction history: no loop runs out
    of rounds and nothing raises. *)
Lemma process_capital_gains_total (txns : list transaction) :
  exists st, process_capital_gains txns = Some st.
Proof. apply (run_from_total txns cg_init). Qed.
End Transactions.

(** ** The async matcher refines the FIFO algorithm of the specification *)

Section Refinement.
Import AsyncEngine Fifo Spec.















End Refinement.

Section RefinementSteps.
Import AsyncEngine Fifo Spec.

End RefinementSteps.

Section RefinementRun.
Import AsyncEngine Fifo Spec.






End RefinementRun.

(** ** Texas *)

Lemma texas_bracket_tax_zero : Spec.texas_bracket_tax 0 == 0.
Proof. vm_compute. reflexivity. Qed.

(** C7, at the failing input.  A Texas household with wages of 1000000
    and donations of 15000 and 1e-23.  The itemized deduction,
    15000.00000000000000000000001, is selected and exceeds 15000; the
    taxable income 984999.99999999999999999999999 has 29 digits and is
    rounded to 985000, so that the amount [process_taxpayer] recovers as
    gross - taxable is 15000 and the discount is not applied: the engine
    stores a state tax of 63150, where 0.99 times the bracket tax of
    the taxable income is 62518.5, stored as 62519.  The float variant
    reads the deduction that was used: over the rationals its Texas tax
    is the bracket tax of the taxable income times 0.99 exactly when that
    deduction exceeds 15000. *)
Theorem texas_discount_reads_a_recovered_deduction :
  option_map (option_map AsyncEngine.total_state_tax)
    (AsyncEngine.try_process_taxpayer Examples.texas_donor)
  = Some (Some 63150%Z) /\
  (let r :=
     AsyncEngine.Prec28.calculate_federal_tax [15000; Qmake 1 (10 ^ 23)]
       1000000 0 0 0 in
   AsyncEngine.fed_deduction_type (fst r) = AsyncEngine.ITEMIZED /\
   snd r == 15000 + Qmake 1 (10 ^ 23) /\
   15000 < snd r /\
   AsyncEngine.taxable (fst r) == 985000 /\
   Dec.sub (AsyncEngine.gross (fst r)) (AsyncEngine.taxable (fst r)) == 15000 /\
   Spec.texas_bracket_tax (AsyncEngine.taxable (fst r)) == 63150 /\
   AsyncEngine.round_dollar
     (Spec.texas_bracket_tax (AsyncEngine.taxable (fst r))
      * (if Qltb 15000 (snd r) then 99 # 100 else 1))
   = 62519%Z) /\
  (forall (w2 w2' : Q) (n : Z) (ncg ewma don ncg' : option Q),
     let fc := SingleThread.calculate_federal_tax w2 n ncg ewma don in
     let deduction :=
       match SingleThread.fc_deduction_method fc with
       | SingleThread.Itemized => SingleThread.itemized_deduction_val fc
       | SingleThread.Standard => 10000
       end in
     SingleThread.taxable_income fc
     = Py.max 0 (SingleThread.gross_income fc - deduction) /\
     snd (SingleThread.state_branch "Texas" w2' ncg' fc)
     == Spec.texas_bracket_tax (SingleThread.taxable_income fc)
        * (if Qltb 15000 deduction then 99 # 100 else 1)).
Proof.
  split; [vm_compute; reflexivity|]. split.
  - cbv zeta.
    split; [vm_compute; reflexivity|]. split; [vm_compute; reflexivity|].
    split; [vm_compute; reflexivity|]. split; [vm_compute; reflexivity|].
    split; [vm_compute; reflexivity|]. split; vm_compute; reflexivity.
  - intros w2 w2' n ncg ewma don ncg' fc deduction.
    pose proof (single_taxable_income_nonneg w2 n ncg ewma don) as Hnn.
    fold fc in Hnn. revert Hnn. unfold deduction, fc. clear deduction fc.
    unfold SingleThread.calculate_federal_tax, SingleThread.state_branch.
    cbn [String.eqb Ascii.eqb Bool.eqb].
    destruct (f_ltb (f_of_Z 10000) _) eqn:Hsel;
      cbn [SingleThread.taxable_income SingleThread.fc_deduction_method
           SingleThread.itemized_deduction_val
           SingleThread.standard_deduction_val SingleThread.gross_income snd];
      intros Hnn; (split; [reflexivity|]);
      match type of Hnn with
      | 0 <= ?t => revert Hnn; generalize t; intros taxable Hnn
      end;
      cbn [f_ltb f_mul f_of_Z f_lit Q_exact];
      change (inject_Z 15000) with (15000 : Q);
      change (inject_Z 10000) with (10000 : Q);
      match goal with
      | |- context [Qltb 15000 ?d] => destruct (Qltb 15000 d)
      end;
      rewrite (single_tx_brackets_marginal _ Hnn); ring.
Qed.
(** ** The FIFO loop in the Decimal context *)

Section RoundedLoop.
Import AsyncEngine.

Lemma dec_sub_self (x : Q) : Dec.sub x x = 0.
Proof.
  unfold Dec.sub, Dec.round.
  assert (Hz : Qeq_bool (x - x) 0 = true) by (apply Qeq_bool_iff; ring).
  rewrite Hz. reflexivity.
Qed.

Lemma filter_open_le (lots : list lot) :
  (length (List.filter is_open lots) <= length lots)%nat.
Proof.
  induction lots as [|b lots IH]; [cbn; lia|].
  cbn [List.filter]. destruct (is_open b); cbn [length]; lia.
Qed.

(** Taking all of the earliest open lot closes it. *)
Lemma decrement_earliest_closes (lots : list lot) (b : lot) (rest : list lot) :
  List.filter is_open lots = b :: rest ->
  List.filter is_open (Prec28.decrement_earliest lots (remaining b)) = rest.
Proof.
  induction lots as [|a lots IH]; intros Hf; [discriminate Hf|].
  cbn [List.filter] in Hf. cbn [Prec28.decrement_earliest].
  destruct (is_open a) eqn:Ha.
  - injection Hf as -> <-. cbn [List.filter].
    unfold is_open at 1. cbn [remaining]. rewrite dec_sub_self.
    reflexivity.
  - cbn [List.filter]. rewrite Ha. apply IH, Hf.
Qed.

(** The loop of one SELL ends: a round either closes the earliest open
    lot or sells the last shares. *)
Lemma rounded_sell_loop_total (t_id : Z) (asset : string) (sell_price : Q) :
  forall (fuel : nat) (shares : Q) (st : cg_state),
    (length (List.filter is_open (lots_of (portfolio st) asset)) < fuel)%nat ->
    exists st', Prec28.sell_loop fuel t_id asset sell_price shares st = Some st'.
Proof.
  induction fuel as [|fuel IH]; intros shares st Hfuel; [lia|].
  cbn [Prec28.sell_loop].
  destruct (Qltb 0 shares); [|eauto].
  destruct (List.filter is_open (lots_of (portfolio st) asset))
    as [|b rest] eqn:Hopen; [eauto|].
  cbn [length] in Hfuel.
  unfold Py.min. cbn [f_ltb Q_exact].
  destruct (Qltb (remaining b) shares).
  - apply IH. cbn [portfolio]. rewrite lots_of_insert_eq.
    rewrite (decrement_earliest_closes _ b rest Hopen). lia.
  - rewrite dec_sub_self.
    destruct fuel as [|fuel']; [lia|].
    cbn [Prec28.sell_loop].
    assert (Hz : Qltb 0 0 = false) by reflexivity.
    rewrite Hz. eauto.
Qed.

Lemma rounded_process_transaction_total (st : cg_state) (txn : transaction) :
  exists st', Prec28.process_transaction st txn = Some st'.
Proof.
  unfold Prec28.process_transaction.
  destruct (t_type txn); [eauto|].
  apply rounded_sell_loop_total. cbn [portfolio].
  pose proof (filter_open_le
                (lots_of (match portfolio st !! t_asset_id txn with
                          | None => <[ t_asset_id txn := [] ]> (portfolio st)
                          | Some _ => portfolio st
                          end) (t_asset_id txn))).
  lia.
Qed.

(** The matcher returns for every transaction history in the Decimal
    context too. *)
Lemma rounded_process_capital_gains_total (txns : list transaction) :
  exists st, Prec28.process_capital_gains txns = Some st.
Proof.
  unfold Prec28.process_capital_gains.
  generalize cg_init. induction txns as [|txn txns IH]; intros st; [eauto|].
  cbn [fold_left].
  destruct (rounded_process_transaction_total st txn) as (st1 & ->).
  apply IH.
Qed.
End RoundedLoop.

(** ** Unknown jurisdiction *)

Lemma round_dollar_zero : AsyncEngine.round_dollar 0 = 0%Z.
Proof. reflexivity. Qed.

(** A Nevada household is not failed: it is false that its status
    becomes ERROR with no result row. *)
Lemma unknown_state_is_not_an_error :
  ~ (forall db' : AsyncEngine.results,
       AsyncEngine.process_taxpayer Examples.empty_results
         (Examples.wage_earner_household "NV-1" "Nevada" 50000) = Some db' ->
       AsyncEngine.processing_status db' !! "NV-1" = Some AsyncEngine.ERROR /\
       AsyncEngine.tax_computations db' !! "NV-1" = None).
Proof.
  intros Hfails.
  destruct (AsyncEngine.process_taxpayer Examples.empty_results
              (Examples.wage_earner_household "NV-1" "Nevada" 50000))
    as [db'|] eqn:Hrun; [|vm_compute in Hrun; discriminate Hrun].
  destruct (Hfails db' eq_refl) as [Hstatus _].
  vm_compute in Hrun. injection Hrun as <-.
  vm_compute in Hstatus. discriminate Hstatus.
Qed.
(** C3, amended. A household whose state is neither California nor
    Texas is not failed.  In the async engine the state resolver returns
    a state tax and a state surcharge of 0 without raising; the
    household ends in ERROR only when another step of its processing
    raises (here, with every amount readable, when the federal total
    needs more than 28 digits), and otherwise it is stored with
    total_state_tax 0 and marked COMPLETED and appears in the output with
    state tax 0; either way the batch goes on with the next household.
    The float variants store a final_liability row with state tax 0:
    single_thread with no state_calculations row, shared_state with a
    state_calculations row that holds the state name, zero bases and a
    zero tax. *)
Theorem unknown_state_gets_zero_state_tax :
  (forall (db : AsyncEngine.results) (h : AsyncEngine.household)
          (w2 ewma children : Q) (txns : list AsyncEngine.transaction)
          (dons : list Q),
     AsyncEngine.state (AsyncEngine.row h) <> "California" ->
     AsyncEngine.state (AsyncEngine.row h) <> "Texas" ->
     AsyncEngine.w2_income (AsyncEngine.row h) = Some w2 ->
     AsyncEngine.ewma_income (AsyncEngine.row h) = Some ewma ->
     AsyncEngine.num_children (AsyncEngine.row h) = Some children ->
     mapM AsyncEngine.read_transaction (AsyncEngine.transactions h) = Some txns ->
     mapM (fun amount => amount) (AsyncEngine.donations h) = Some dons ->
     exists (cg : AsyncEngine.cg_state)
            (r : option AsyncEngine.tax_computation)
            (db' : AsyncEngine.results),
       AsyncEngine.Prec28.process_capital_gains txns = Some cg /\
       (forall (fed : AsyncEngine.fed_data) (deduction : Q),
          AsyncEngine.Prec28.calculate_state_tax
            (AsyncEngine.state (AsyncEngine.row h)) w2
            (AsyncEngine.realized_gains_total cg) fed deduction
          = (0, 0)) /\
       AsyncEngine.try_process_taxpayer h = Some r /\
       (r = None <->
        AsyncEngine.Prec28.round_dollar
          (AsyncEngine.total
             (fst (AsyncEngine.Prec28.calculate_federal_tax dons w2
                     (AsyncEngine.realized_gains_total cg) ewma children)))
        = None) /\
       AsyncEngine.process_taxpayer db h = Some db' /\
       (forall c, r = Some c ->
          AsyncEngine.total_state_tax c = 0%Z /\
          AsyncEngine.state_surcharge c = 0 /\
          AsyncEngine.processing_status db'
            !! AsyncEngine.taxpayer_id (AsyncEngine.row h)
          = Some AsyncEngine.COMPLETED /\
          AsyncEngine.tax_computations db'
            !! AsyncEngine.taxpayer_id (AsyncEngine.row h) = Some c /\
          AsyncEngine.write_output [AsyncEngine.row h] db'
          = [ {| AsyncEngine.out_taxpayer_id :=
                   AsyncEngine.taxpayer_id (AsyncEngine.row h);
                 AsyncEngine.federal_tax := AsyncEngine.total_federal_tax c;
                 AsyncEngine.state_tax := 0 |} ]) /\
       (forall rest : list AsyncEngine.household,
          AsyncEngine.process_batch db (h :: rest)
          = AsyncEngine.process_batch db' rest)) /\
  (forall (F : Type) (PF : PyFloat F) (state : string) (w2 : F)
          (ncg : option F) (fc : SingleThread.federal_calculations F),
     state <> "California" -> state <> "Texas" ->
     SingleThread.state_branch state w2 ncg fc = (None, f_of_Z 0)) /\
  (forall (state : string) (w2 : Q) (ncg : option Q)
          (fc : SingleThread.federal_calculations Q),
     state <> "California" -> state <> "Texas" ->
     SingleThread.calculate_state_tax state w2 ncg fc
     = Some (None,
             {| SingleThread.total_federal_tax :=
                  round_half_even (SingleThread.final_federal_tax fc);
                SingleThread.total_state_tax := 0 |})) /\
  (forall (F : Type) (PF : PyFloat F) (i : SharedState.inputs F)
          (o : SharedState.outputs F),
     SharedState.state i <> "California" ->
     SharedState.state i <> "Texas" ->
     SharedState.calculate_tax_for_person i = Some o ->
     SharedState.state_row o
     = {| SingleThread.state_name := SharedState.state i;
          SingleThread.california_gross_basis := Some (f_of_Z 0);
          SingleThread.texas_taxable_basis := Some (f_of_Z 0);
          SingleThread.final_state_tax := f_of_Z 0 |} /\
     f_round (f_of_Z 0)
     = Some (SingleThread.total_state_tax (SharedState.liability o))) /\
  (forall i : SharedState.inputs Q,
     SharedState.state i <> "California" ->
     SharedState.state i <> "Texas" ->
     exists o,
       SharedState.calculate_tax_for_person i = Some o /\
       SingleThread.total_state_tax (SharedState.liability o) = 0%Z) /\
  (forall (i : SharedState.inputs float) (o : SharedState.outputs float),
     SharedState.state i <> "California" ->
     SharedState.state i <> "Texas" ->
     SharedState.calculate_tax_for_person i = Some o ->
     SingleThread.total_state_tax (SharedState.liability o) = 0%Z).
Proof.
  assert (Hbranch : forall (F : Type) (PF : PyFloat F) (state : string) (w2 : F)
            (ncg : option F) (fc : SingleThread.federal_calculations F),
            state <> "California" -> state <> "Texas" ->
            SingleThread.state_branch state w2 ncg fc = (None, f_of_Z 0)).
  { intros F PF state w2 ncg fc Hca Htx. unfold SingleThread.state_branch.
    apply String.eqb_neq in Hca, Htx. rewrite Hca, Htx. reflexivity. }
  assert (Hshared : forall (F : Type) (PF : PyFloat F) (i : SharedState.inputs F)
            (o : SharedState.outputs F),
            SharedState.state i <> "California" ->
            SharedState.state i <> "Texas" ->
            SharedState.calculate_tax_for_person i = Some o ->
            SharedState.state_row o
            = {| SingleThread.state_name := SharedState.state i;
                 SingleThread.california_gross_basis := Some (f_of_Z 0);
                 SingleThread.texas_taxable_basis := Some (f_of_Z 0);
                 SingleThread.final_state_tax := f_of_Z 0 |} /\
            f_round (f_of_Z 0)
            = Some (SingleThread.total_state_tax (SharedState.liability o))).
  { intros F PF i o Hca Htx. unfold SharedState.calculate_tax_for_person.
    apply String.eqb_neq in Hca, Htx. rewrite Hca, Htx.
    destruct (f_ltb (f_of_Z 10000) _);
      destruct (f_round _) as [fed|]; try discriminate;
      destruct (f_round (f_of_Z 0)) as [st|] eqn:Hst; try discriminate;
      intros Ho; injection Ho as <-; split; reflexivity. }
  split; [|split; [exact Hbranch|split; [|split; [exact Hshared|split]]]].
  - intros db h w2 ewma children txns dons Hca Htx Hw2 Hewma Hn Htxns Hdons.
    destruct (rounded_process_capital_gains_total txns) as (cg & Hcg).
    apply String.eqb_neq in Hca, Htx.
    assert (Hstate : forall fed deduction,
              AsyncEngine.Prec28.calculate_state_tax
                (AsyncEngine.state (AsyncEngine.row h)) w2
                (AsyncEngine.realized_gains_total cg) fed deduction = (0, 0)).
    { intros fed deduction. unfold AsyncEngine.Prec28.calculate_state_tax.
      rewrite Hca, Htx. reflexivity. }
    exists cg.
    unfold AsyncEngine.process_batch, AsyncEngine.process_taxpayer,
      AsyncEngine.try_process_taxpayer.
    rewrite Hw2, Hewma, Hn, Htxns, Hdons, Hcg, Hstate.
    change (AsyncEngine.Prec28.round_dollar 0) with (Some 0%Z).
    destruct (AsyncEngine.Prec28.round_dollar _) as [fed_rounded|] eqn:Hfed.
    + eexists _, _. split; [reflexivity|]. split; [exact Hstate|].
      split; [reflexivity|]. split; [split; discriminate|].
      split; [reflexivity|]. split.
      * intros c Hc. injection Hc as <-.
        cbn [AsyncEngine.total_state_tax AsyncEngine.state_surcharge
             AsyncEngine.processing_status AsyncEngine.tax_computations].
        rewrite !lookup_insert_eq.
        split; [reflexivity|]. split; [reflexivity|].
        split; [reflexivity|]. split; [reflexivity|].
        unfold AsyncEngine.write_output.
        cbn [omap list_omap AsyncEngine.tax_computations].
        rewrite lookup_insert_eq. reflexivity.
      * intros rest. cbn [fold_left]. rewrite Hw2, Hewma, Hn, Htxns, Hdons, Hcg, Hstate, Hfed.
        reflexivity.
    + eexists _, _. split; [reflexivity|]. split; [exact Hstate|].
      split; [reflexivity|]. split; [split; reflexivity|].
      split; [reflexivity|]. split; [intros c Hc; discriminate Hc|].
      intros rest. cbn [fold_left]. rewrite Hw2, Hewma, Hn, Htxns, Hdons, Hcg, Hstate, Hfed.
      reflexivity.
  - intros state w2 ncg fc Hca Htx. unfold SingleThread.calculate_state_tax.
    rewrite (Hbranch Q Q_exact state w2 ncg fc Hca Htx). reflexivity.
  - intros i Hca Htx.
    destruct (SharedState.calculate_tax_for_person i) as [o|] eqn:Ho.
    + exists o. split; [reflexivity|].
      destruct (Hshared Q Q_exact i o Hca Htx Ho) as [_ Hz].
      cbn in Hz. injection Hz as Hz. symmetry. exact Hz.
    + exfalso. revert Ho. unfold SharedState.calculate_tax_for_person.
      destruct (f_ltb (f_of_Z 10000) _);
        destruct (String.eqb _ "California"); try destruct (String.eqb _ "Texas");
        cbn [f_round Q_exact]; discriminate.
  - intros i o Hca Htx Ho.
    destruct (Hshared float binary64 i o Hca Htx Ho) as [_ Hz].
    vm_compute in Hz. injection Hz as Hz. symmetry. exact Hz.
Qed.

(** A Nevada household with wages of 50000: federal tax 2000, state tax 0,
    COMPLETED. *)
Lemma unknown_state_gets_zero_state_tax_witness :
  exists (c : AsyncEngine.tax_computation) (db' : AsyncEngine.results),
    AsyncEngine.try_process_taxpayer
      (Examples.wage_earner_household "NV-1" "Nevada" 50000) = Some (Some c) /\
    AsyncEngine.total_state_tax c = 0%Z /\
    AsyncEngine.process_taxpayer Examples.empty_results
      (Examples.wage_earner_household "NV-1" "Nevada" 50000) = Some db' /\
    AsyncEngine.processing_status db' !! "NV-1" = Some AsyncEngine.COMPLETED.
Proof.
  destruct unknown_state_gets_zero_state_tax as [Hasync _].
  destruct (Hasync Examples.empty_results
              (Examples.wage_earner_household "NV-1" "Nevada" 50000)
              50000 0 0 [] [])
    as (cg & r & db' & _ & _ & Hr & _ & Hdb & Hc & _);
    try reflexivity; try (intros Heq; discriminate Heq).
  vm_compute in Hr. injection Hr as <-.
  destruct (Hc _ eq_refl) as (H1 & _ & H3 & _).
  eexists _, db'. split; [vm_compute; reflexivity|].
  split; [exact H1|]. split; [exact Hdb|exact H3].
Defined.
(** ** Final rounding *)

(** [round_dollar] rounds half-up: to a nearest integer, and at a tie to
    the one away from zero. *)
Theorem round_dollar_rounds_half_up (d : Q) :
  Spec.rounds_half_up d (AsyncEngine.round_dollar d).
Proof.
  unfold Spec.rounds_half_up, AsyncEngine.round_dollar.
  pose proof (Qfloor_le (Qabs d + (1 # 2))) as Hlo.
  pose proof (Qlt_floor (Qabs d + (1 # 2))) as Hhi.
  rewrite inject_Z_plus in Hhi. change (inject_Z 1) with 1 in Hhi.
  assert (Hr : 0 <= inject_Z (Qfloor (Qabs d + (1 # 2)))).
  { change 0 with (inject_Z 0). rewrite <- Zle_Qle.
    change 0%Z with (Qfloor 0). apply Qfloor_resp_le.
    pose proof (Qabs_nonneg d). lra. }
  set (r := Qfloor (Qabs d + (1 # 2))) in *.
  destruct (Qltb d 0) eqn:Hneg.
  - apply Qltb_true in Hneg.
    assert (Habs : Qabs d == - d) by (apply Qabs_neg; lra).
    rewrite Habs in Hlo, Hhi. rewrite inject_Z_opp.
    split.
    + apply Qabs_Qle_condition. split; lra.
    + intros Htie. rewrite Habs.
      rewrite (Qabs_neg (- inject_Z r)) by lra.
      revert Htie.
      apply (Qabs_case (- inject_Z r - d)
               (fun a => a == 1 # 2 -> - d < - - inject_Z r));
        intros Hsign Htie; lra.
  - apply Qltb_false in Hneg.
    assert (Habs : Qabs d == d) by (apply Qabs_pos; lra).
    rewrite Habs in Hlo, Hhi.
    split.
    + apply Qabs_Qle_condition. split; lra.
    + intros Htie. rewrite Habs.
      rewrite (Qabs_pos (inject_Z r)) by lra.
      revert Htie.
      apply (Qabs_case (inject_Z r - d)
               (fun a => a == 1 # 2 -> d < inject_Z r));
        intros Hsign Htie; lra.
Qed.

(** C4, at the failing input. A Texas household with wages of 10050 and
    nothing else owes a federal tax of exactly 2.5 (5% of the 50 above
    the standard deduction), in binary64 as over the rationals.  Half-up
    rounding gives 3, which is what the async engine stores; the two
    float variants store [int(round(2.5))] = 2, the tie going to the
    even neighbour. *)
Theorem float_variants_round_half_to_even :
  SingleThread.final_federal_tax
    (SingleThread.calculate_federal_tax 10050%float 0
       (Some 0%float) (Some 0%float) None) = 2.5%float /\
  option_map (fun r => SingleThread.total_federal_tax (snd r))
    (SingleThread.run_analysis (F := float) (Examples.wage_earner "Texas" 10050))
  = Some 2%Z /\
  option_map (fun r => SingleThread.total_federal_tax (snd r))
    (SingleThread.run_analysis (F := Q) (Examples.wage_earner "Texas" 10050))
  = Some 2%Z /\
  option_map (fun o => SingleThread.total_federal_tax (SharedState.liability o))
    (SharedState.calculate_tax_for_person (F := float)
       (Examples.wage_earner_inputs "Texas" 10050))
  = Some 2%Z /\
  option_map (fun o => SingleThread.total_federal_tax (SharedState.liability o))
    (SharedState.calculate_tax_for_person (F := Q)
       (Examples.wage_earner_inputs "Texas" 10050))
  = Some 2%Z /\
  option_map (option_map AsyncEngine.total_federal_tax)
    (AsyncEngine.try_process_taxpayer
       (Examples.wage_earner_household "TX-2" "Texas" 10050))
  = Some (Some 3%Z) /\
  Spec.rounds_half_up (5 # 2) 3 /\
  ~ Spec.rounds_half_up (5 # 2) 2.
Proof.
  split; [vm_compute; reflexivity|].
  split; [vm_compute; reflexivity|].
  split; [vm_compute; reflexivity|].
  split; [vm_compute; reflexivity|].
  split; [vm_compute; reflexivity|].
  split; [vm_compute; reflexivity|].
  split.
  - split; [|intros _]; vm_compute; [discriminate|reflexivity].
  - intros [_ Htie].
    assert (Hlt : Qabs (5 # 2) < Qabs (inject_Z 2))
      by (apply Htie; vm_compute; reflexivity).
    vm_compute in Hlt. discriminate Hlt.
Qed.

(** ** Overselling *)

Section Overselling.
Import AsyncEngine Fifo.

End Overselling.

Section Matching.
Import AsyncEngine Fifo.

(** C2, at the failing input: 10 shares of A bought at 5, then 15 sold
    at 10.  Only 10 shares can be matched; their gain is 10 x (10 - 5) =
    50, and the 5 unmatched shares are to add no cost basis and no
    further gain.  The async engine does so, exactly and in the Decimal
    context, and logs the overselling warning.  The float variants log
    nothing and subtract the cost basis of the matched shares from the
    proceeds of the whole sale: 15 x 10 - 50 = 100, the unmatched shares
    adding their full proceeds to the gain. *)
Theorem float_matcher_sells_unmatched_shares :
  option_map (fun st => (realized_gains_total st, warnings st))
    (process_capital_gains Examples.oversold_history)
  = Some (10 * (10 - 5), ["A"]) /\
  option_map (fun st => (Qred (realized_gains_total st), warnings st))
    (Prec28.process_capital_gains Examples.oversold_history)
  = Some (50, ["A"]) /\
  SingleThread.net_capital_gain
    (SingleThread.calculate_capital_gains (F := Q)
       Examples.oversold_purchases Examples.oversold_sales) == 100 /\
  SingleThread.total_cost_basis
    (SingleThread.calculate_capital_gains (F := Q)
       Examples.oversold_purchases Examples.oversold_sales) == 50 /\
  SingleThread.net_capital_gain
    (SingleThread.calculate_capital_gains (F := float)
       Examples.oversold_purchases Examples.oversold_sales) = 100%float /\
  option_map
    (fun o => SingleThread.net_capital_gain (SharedState.capital_gains o))
    (SharedState.calculate_tax_for_person (F := float)
       {| SharedState.state := "Texas";
          SharedState.w2_income := 0%float;
          SharedState.num_children := 0;
          SharedState.history_rows := [];
          SharedState.purchases := Examples.oversold_purchases;
          SharedState.sales := Examples.oversold_sales;
          SharedState.donation_rows := [] |})
  = Some 100%float.
Proof.
  split; [vm_compute; reflexivity|]. split; [vm_compute; reflexivity|].
  split; [vm_compute; reflexivity|]. split; [vm_compute; reflexivity|].
  split; vm_compute; reflexivity.
Qed.

(** C1, at the failing input. Two assets: 10 shares of A bought at 5,
    10 shares of B bought at 100, then the 10 shares of B sold at 150.
    FIFO per asset matches the sale with the lot of B: one record, gain
    10 x (150 - 100) = 500, which is what the specification's algorithm
    and the async engine give.  The matcher of the float variants walks
    all purchases of the household whatever their asset, takes the
    shares of A, and reports 10 x 150 - 10 x 5 = 1450. *)
Theorem float_matcher_ignores_the_asset :
  SingleThread.net_capital_gain
    (SingleThread.calculate_capital_gains (F := Q)
       Examples.two_asset_purchases Examples.two_asset_sales) == 1450 /\
  SingleThread.net_capital_gain
    (SingleThread.calculate_capital_gains (F := float)
       Examples.two_asset_purchases Examples.two_asset_sales) = 1450%float /\
  option_map
    (fun o => SingleThread.net_capital_gain (SharedState.capital_gains o))
    (SharedState.calculate_tax_for_person (F := float)
       {| SharedState.state := "Texas";
          SharedState.w2_income := 0%float;
          SharedState.num_children := 0;
          SharedState.history_rows := [];
          SharedState.purchases := Examples.two_asset_purchases;
          SharedState.sales := Examples.two_asset_sales;
          SharedState.donation_rows := [] |})
  = Some 1450%float /\
  Spec.net_realized_gain Examples.two_asset_history == 500 /\
  option_map realized_gains (process_capital_gains Examples.two_asset_history)
  = Some [ {| sell_transaction_id := 3;
              buy_transaction_id := 2;
              matched_quantity := 10;
              gain_amount := 10 * (150 - 100) |} ] /\
  option_map realized_gains_total
    (process_capital_gains Examples.two_asset_history)
  = Some (0 + 10 * (150 - 100)).
Proof. repeat split; vm_compute; reflexivity. Qed.
End Matching.

Section Extras.
Import AsyncEngine Fifo.



End Extras.

(** * Further properties of the code *)

(** ** The smoothed income *)

Section Smoothing.






End Smoothing.

(** ** Bracket ladders: no cliffs *)

Section Brackets.




End Brackets.

(** ** Deduction and taxable income *)


Section Federal.








End Federal.

(** ** The two roundings *)

Section Roundings.

Lemma Z_minus_frac (a n : Z) (d : positive) :
  inject_Z a - (n # d) == (a * Zpos d - n) # d.
Proof.
  unfold Qeq, Qminus, Qplus, Qopp, inject_Z. cbn [Qnum Qden].
  rewrite ?Pos2Z.inj_mul. ring.
Qed.

Lemma frac_abs_le_half (z : Z) (d : positive) :
  Qabs (z # d) <= 1 # 2 <-> (2 * Z.abs z <= Zpos d)%Z.
Proof. cbn [Qabs]. unfold Qle. cbn [Qnum Qden]. lia. Qed.

Lemma frac_abs_eq_half (z : Z) (d : positive) :
  Qabs (z # d) == 1 # 2 <-> (2 * Z.abs z = Zpos d)%Z.
Proof. cbn [Qabs]. unfold Qeq. cbn [Qnum Qden]. lia. Qed.

(** [round(x)] returns a nearest integer, and the even one at a tie. *)
Lemma round_half_even_nearest (x : Q) :
  Qabs (inject_Z (round_half_even x) - x) <= 1 # 2 /\
  (Qabs (inject_Z (round_half_even x) - x) == 1 # 2 ->
   Z.even (round_half_even x) = true).
Proof.
  destruct x as [n d]. unfold round_half_even. cbn [Qnum Qden].
  pose proof (Z.div_mod n (Zpos d) ltac:(lia)) as Hdm.
  pose proof (Z.mod_pos_bound n (Zpos d) ltac:(lia)) as Hr.
  set (q := (n / Zpos d)%Z) in *. set (r := (n mod Zpos d)%Z) in *.
  destruct (Z.compare_spec (2 * r) (Zpos d)) as [Heq|Hlt|Hgt].
  - destruct (Z.even q) eqn:Hev;
      rewrite Z_minus_frac, frac_abs_le_half, frac_abs_eq_half;
      (split; [lia|intros _]); [exact Hev|].
    rewrite Z.even_add, Hev. reflexivity.
  - rewrite Z_minus_frac, frac_abs_le_half, frac_abs_eq_half. split; lia.
  - rewrite Z_minus_frac, frac_abs_le_half, frac_abs_eq_half. split; lia.
Qed.

Lemma nearest_integers (x : Q) (a b : Z) :
  Qabs (inject_Z a - x) <= 1 # 2 ->
  Qabs (inject_Z b - x) <= 1 # 2 ->
  a = b \/
  (a = b + 1)%Z /\ x == inject_Z b + (1 # 2) \/
  (b = a + 1)%Z /\ x == inject_Z a + (1 # 2).
Proof.
  intros Ha Hb. apply Qabs_Qle_condition in Ha, Hb.
  assert (H1 : (a <= b + 1)%Z).
  { rewrite Zle_Qle. rewrite inject_Z_plus. change (inject_Z 1) with 1. lra. }
  assert (H2 : (b <= a + 1)%Z).
  { rewrite Zle_Qle. rewrite inject_Z_plus. change (inject_Z 1) with 1. lra. }
  destruct (Z.eq_dec a b) as [Heq|Hne]; [left; exact Heq|right].
  destruct (Z.eq_dec a (b + 1)%Z) as [H|H].
  - left. split; [exact H|]. subst a. rewrite inject_Z_plus in Ha.
    change (inject_Z 1) with 1 in Ha. lra.
  - right. assert (Hb1 : b = (a + 1)%Z) by lia. split; [exact Hb1|].
    subst b. rewrite inject_Z_plus in Hb. change (inject_Z 1) with 1 in Hb. lra.
Qed.

Lemma round_dollar_within_half (x : Q) :
  Qabs (inject_Z (AsyncEngine.round_dollar x) - x) <= 1 # 2.
Proof.
  unfold AsyncEngine.round_dollar.
  pose proof (Qfloor_le (Qabs x + (1 # 2))) as Hlo.
  pose proof (Qlt_floor (Qabs x + (1 # 2))) as Hhi.
  rewrite inject_Z_plus in Hhi. change (inject_Z 1) with 1 in Hhi.
  set (r := Qfloor (Qabs x + (1 # 2))) in *.
  apply Qabs_Qle_condition.
  destruct (Qltb x 0) eqn:Hneg;
    [apply Qltb_true in Hneg | apply Qltb_false in Hneg].
  - rewrite (Qabs_neg x) in Hlo, Hhi by lra. rewrite inject_Z_opp. split; lra.
  - rewrite (Qabs_pos x) in Hlo, Hhi by lra. split; lra.
Qed.

Lemma abs_half_below (k : Z) :
  Qabs (inject_Z k - (inject_Z k + (1 # 2))) == 1 # 2.
Proof.
  assert (H : inject_Z k - (inject_Z k + (1 # 2)) == - (1 # 2)) by ring.
  rewrite H. reflexivity.
Qed.

Lemma abs_half_above (k : Z) :
  Qabs (inject_Z (k + 1) - (inject_Z k + (1 # 2))) == 1 # 2.
Proof.
  assert (H : inject_Z (k + 1) - (inject_Z k + (1 # 2)) == 1 # 2)
    by (rewrite inject_Z_plus; change (inject_Z 1) with 1; ring).
  rewrite H. reflexivity.
Qed.

(** The whole-dollar amounts of the float variants ([int(round(x))])
    and of the async engine ([round_dollar]) never differ by more than 1,
    and they differ exactly when the amount is an exact half, k + 1/2,
    and the half-up result is odd. *)
Theorem roundings_differ_only_at_halves (x : Q) :
  (Z.abs (AsyncEngine.round_dollar x - round_half_even x) <= 1)%Z /\
  (AsyncEngine.round_dollar x <> round_half_even x <->
   (exists k : Z, x == inject_Z k + (1 # 2)) /\
   Z.odd (AsyncEngine.round_dollar x) = true).
Proof.
  pose proof (round_dollar_within_half x) as Hup.
  destruct (round_half_even_nearest x) as [Hev Hev_tie].
  set (a := AsyncEngine.round_dollar x) in *.
  set (b := round_half_even x) in *.
  pose proof (nearest_integers x a b Hup Hev) as Hnear.
  split; [destruct Hnear as [->|[[-> _]|[-> _]]]; lia|].
  split.
  - intros Hne.
    assert (Htie : Qabs (inject_Z b - x) == 1 # 2 /\
                   exists k : Z, x == inject_Z k + (1 # 2)).
    { destruct Hnear as [Heq|[[Hab Hx]|[Hba Hx]]]; [contradiction| |].
      - split; [|exists b; exact Hx]. rewrite Hx. apply abs_half_below.
      - split; [|exists a; exact Hx]. rewrite Hx, Hba. apply abs_half_above. }
    destruct Htie as [Htie Hk]. split; [exact Hk|].
    pose proof (Hev_tie Htie) as Heven.
    rewrite <- Z.negb_even.
    destruct Hnear as [Heq|[[Hab _]|[Hba _]]]; [contradiction| |].
    + rewrite Hab, Z.even_add, Heven. reflexivity.
    + rewrite Hba, Z.even_add in Heven. cbn in Heven.
      destruct (Z.even a); [discriminate Heven|reflexivity].
  - intros [[k Hk] Hodd] Heq.
    assert (Htie : Qabs (inject_Z b - x) == 1 # 2).
    { assert (Hkb : (k <= b <= k + 1)%Z).
      { apply Qabs_Qle_condition in Hev. rewrite Hk in Hev. split.
        - rewrite Zle_Qle. lra.
        - rewrite Zle_Qle. rewrite inject_Z_plus. change (inject_Z 1) with 1. lra. }
      rewrite Hk.
      destruct (Z.eq_dec b k) as [Hbk|Hbk].
      - rewrite Hbk. apply abs_half_below.
      - assert (Hb : b = (k + 1)%Z) by lia. rewrite Hb. apply abs_half_above. }
    pose proof (Hev_tie Htie) as Heven.
    rewrite <- Heq, <- Z.negb_odd, Hodd in Heven. discriminate Heven.
Qed.
End Roundings.

(** ** The float and the Decimal variants agree before rounding *)

Section Agreement.



End Agreement.

(** ** shared_state computes what single_thread computes *)

Section Threaded.



Section AnyNumbers.
Context {F : Type} `{PyFloat F}.
Hypothesis zero_is_not_positive :
  forall x : F, f_eqb x (f_of_Z 0) = true -> f_ltb (f_of_Z 0) x = false.


End AnyNumbers.



End Threaded.

(** ** The batch loop of the async engine *)

Section Batches.
Import AsyncEngine.

Lemma process_batch_cons (db : results) (h : household)
    (batch : list household) :
  process_batch db (h :: batch)
  = match process_taxpayer db h with
    | Some db1 => process_batch db1 batch
    | None => None
    end.
Proof.
  unfold process_batch. cbn [fold_left].
  destruct (process_taxpayer db h) as [db1|]; [reflexivity|].
  induction batch as [|h' batch IH]; [reflexivity|exact IH].
Qed.

(** The [try] block always ends, in a computation or in an exception;
    it ends in an exception when one of the values it converts cannot
    be read. *)
Lemma try_process_taxpayer_total (h : household) :
  exists r, try_process_taxpayer h = Some r /\
    (w2_income (row h) = None \/ ewma_income (row h) = None \/
     mapM read_transaction (transactions h) = None \/
     mapM (fun amount => amount) (donations h) = None \/
     num_children (row h) = None -> r = None).
Proof.
  unfold try_process_taxpayer.
  destruct (w2_income (row h)) as [w2|];
    [|exists None; split; [reflexivity|auto]].
  destruct (ewma_income (row h)) as [ewma|];
    [|exists None; split; [reflexivity|auto]].
  destruct (mapM read_transaction (transactions h)) as [txns|];
    [|exists None; split; [reflexivity|auto]].
  destruct (rounded_process_capital_gains_total txns) as (cg & ->).
  destruct (mapM (fun amount => amount) (donations h)) as [dons|];
    [|exists None; split; [reflexivity|auto]].
  destruct (num_children (row h)) as [n|];
    [|exists None; split; [reflexivity|auto]].
  cbv zeta.
  destruct (Prec28.calculate_state_tax _ _ _ _ _) as [raw sur].
  destruct (Prec28.round_dollar _) as [fed_rounded|];
    [destruct (Prec28.round_dollar raw) as [state_rounded|]|];
    (eexists; split; [reflexivity|]);
    intros [Hn|[Hn|[Hn|[Hn|Hn]]]]; discriminate Hn.
Qed.

Lemma process_taxpayer_spec (db : results) (h : household) :
  exists r db',
    try_process_taxpayer h = Some r /\
    process_taxpayer db h = Some db' /\
    processing_status db'
    = <[ taxpayer_id (row h) := match r with Some _ => COMPLETED | None => ERROR end ]>
        (processing_status db) /\
    tax_computations db'
    = match r with
      | Some c => <[ taxpayer_id (row h) := c ]> (tax_computations db)
      | None => tax_computations db
      end.
Proof.
  destruct (try_process_taxpayer_total h) as (r & Hr & _).
  unfold process_taxpayer. rewrite Hr.
  destruct r as [c|]; eexists _, _; repeat split; reflexivity.
Qed.

Lemma same_id_same_household (l : list household) (x y : household) :
  NoDup (map (fun h => taxpayer_id (row h)) l) ->
  In x l -> In y l -> taxpayer_id (row x) = taxpayer_id (row y) -> x = y.
Proof.
  induction l as [|a l IH]; intros Hnd Hx Hy Hid; [destruct Hx|].
  cbn [map] in Hnd. apply NoDup_cons in Hnd as [Hna Hnd].
  rewrite list_elem_of_In in Hna.
  destruct Hx as [<-|Hx], Hy as [<-|Hy]; try reflexivity.
  - exfalso. apply Hna. rewrite Hid.
    apply (in_map (fun h => taxpayer_id (row h))), Hy.
  - exfalso. apply Hna. rewrite <- Hid.
    apply (in_map (fun h => taxpayer_id (row h))), Hx.
  - apply IH; assumption.
Qed.

(** One batch: every household of it is processed once, the others are
    left alone. *)
Lemma process_batch_spec (batch : list household) :
  NoDup (map (fun h => taxpayer_id (row h)) batch) ->
  forall db, exists db',
    process_batch db batch = Some db' /\
    (forall id, ~ In id (map (fun h => taxpayer_id (row h)) batch) ->
       processing_status db' !! id = processing_status db !! id /\
       tax_computations db' !! id = tax_computations db !! id) /\
    (forall h, In h batch ->
       exists r, try_process_taxpayer h = Some r /\
         processing_status db' !! taxpayer_id (row h)
         = Some (match r with Some _ => COMPLETED | None => ERROR end) /\
         tax_computations db' !! taxpayer_id (row h)
         = match r with
           | Some c => Some c
           | None => tax_computations db !! taxpayer_id (row h)
           end).
Proof.
  induction batch as [|h batch IH]; intros Hnd db.
  - exists db. split; [reflexivity|]. split; [auto|]. intros h [].
  - cbn [map] in Hnd. apply NoDup_cons in Hnd as [Hna Hnd].
    rewrite list_elem_of_In in Hna.
    destruct (process_taxpayer_spec db h) as (r & db1 & Hr & Hp & Hs & Hc).
    destruct (IH Hnd db1) as (db' & Hrun & Hout & Hin).
    exists db'. rewrite process_batch_cons, Hp. split; [exact Hrun|]. split.
    + intros id Hid. cbn [map In] in Hid.
      assert (Hne : taxpayer_id (row h) <> id) by tauto.
      assert (Hni : ~ In id (map (fun h => taxpayer_id (row h)) batch)) by tauto.
      destruct (Hout id Hni) as [H1 H2]. rewrite H1, H2, Hs, Hc.
      split; [apply lookup_insert_ne, Hne|].
      destruct r; [apply lookup_insert_ne, Hne|reflexivity].
    + intros h' [<-|Hh'].
      * exists r. split; [exact Hr|].
        destruct (Hout _ Hna) as [H1 H2]. rewrite H1, H2, Hs, Hc.
        split; [apply lookup_insert_eq|].
        destruct r; [apply lookup_insert_eq|reflexivity].
      * destruct (Hin h' Hh') as (r' & Hr' & H1 & H2).
        exists r'. split; [exact Hr'|]. split; [exact H1|].
        rewrite H2. destruct r'; [reflexivity|]. rewrite Hc.
        assert (Hne : taxpayer_id (row h) <> taxpayer_id (row h')).
        { intros Heq. apply Hna. rewrite Heq.
          apply (in_map (fun h => taxpayer_id (row h))), Hh'. }
        destruct r; [apply lookup_insert_ne, Hne|reflexivity].
Qed.

Lemma in_firstn {A : Type} (n : nat) (l : list A) (x : A) :
  In x (firstn n l) -> In x l.
Proof.
  revert n. induction l as [|a l IH]; intros [|n] Hx; try destruct Hx.
  - left. assumption.
  - right. eapply IH. eassumption.
Qed.

Lemma NoDup_map_filter (p : household -> bool) (l : list household) :
  NoDup (map (fun h => taxpayer_id (row h)) l) ->
  NoDup (map (fun h => taxpayer_id (row h)) (List.filter p l)).
Proof.
  induction l as [|a l IH]; intros Hnd; [exact Hnd|].
  cbn [map] in Hnd. apply NoDup_cons in Hnd as [Hna Hnd].
  cbn [List.filter]. destruct (p a); [|apply IH, Hnd].
  cbn [map]. apply NoDup_cons_2; [|apply IH, Hnd].
  rewrite list_elem_of_In in *. intros Hin. apply Hna.
  apply in_map_iff in Hin as (x & Hx & Hin).
  apply filter_In in Hin as [Hin _].
  rewrite <- Hx. apply (in_map (fun h => taxpayer_id (row h))), Hin.
Qed.

Lemma NoDup_map_firstn (n : nat) (l : list household) :
  NoDup (map (fun h => taxpayer_id (row h)) l) ->
  NoDup (map (fun h => taxpayer_id (row h)) (firstn n l)).
Proof.
  revert n. induction l as [|a l IH]; intros [|n] Hnd;
    cbn [firstn map]; try (constructor; fail).
  cbn [map] in Hnd. apply NoDup_cons in Hnd as [Hna Hnd].
  apply NoDup_cons_2; [|apply IH, Hnd].
  rewrite list_elem_of_In in *. intros Hin. apply Hna.
  apply in_map_iff in Hin as (x & Hx & Hin). apply in_firstn in Hin.
  rewrite <- Hx. apply (in_map (fun h => taxpayer_id (row h))), Hin.
Qed.

(** Fewer elements pass a stronger test that one of them fails. *)
Lemma filter_shrinks {A : Type} (p q : A -> bool) (l : list A) (x : A) :
  (forall y, In y l -> q y = true -> p y = true) ->
  In x l -> p x = true -> q x = false ->
  (length (List.filter q l) < length (List.filter p l))%nat.
Proof.
  intros Hsub. 
  assert (Hle : forall l', (forall y, In y l' -> q y = true -> p y = true) ->
            (length (List.filter q l') <= length (List.filter p l'))%nat).
  { induction l' as [|a l' IH]; intros Hs; [cbn; lia|].
    cbn [List.filter].
    assert (IH' := IH (fun y Hy => Hs y (or_intror Hy))).
    destruct (q a) eqn:Hq.
    - rewrite (Hs a (or_introl eq_refl) Hq). cbn [length]. lia.
    - destruct (p a); cbn [length]; lia. }
  induction l as [|a l IH]; intros Hx Hp Hq; [destruct Hx|].
  cbn [List.filter].
  assert (Hle' := Hle l (fun y Hy => Hsub y (or_intror Hy))).
  destruct Hx as [->|Hx].
  - rewrite Hp, Hq. cbn [length]. lia.
  - assert (IH' := IH (fun y Hy => Hsub y (or_intror Hy)) Hx Hp Hq).
    destruct (q a) eqn:Hqa.
    + rewrite (Hsub a (or_introl eq_refl) Hqa). cbn [length]. lia.
    + destruct (p a); cbn [length]; lia.
Qed.

Lemma is_pending_same (db db' : results) (h : household) :
  processing_status db' !! taxpayer_id (row h)
  = processing_status db !! taxpayer_id (row h) ->
  is_pending db' h = is_pending db h.
Proof. unfold is_pending. intros ->. reflexivity. Qed.

(** The loop, from any state of the tables: with a round of fuel for
    each pending household and one more it returns; the households that
    were pending are processed once, in their own right, and nothing else
    changes. *)
Lemma run_analysis_engine_spec (table : list household) :
  NoDup (map (fun h => taxpayer_id (row h)) table) ->
  forall fuel db,
    (length (List.filter (is_pending db) table) < fuel)%nat ->
    exists db',
      run_analysis_engine fuel table db = Some db' /\
      (forall id, ~ In id (map (fun h => taxpayer_id (row h)) table) ->
         processing_status db' !! id = processing_status db !! id /\
         tax_computations db' !! id = tax_computations db !! id) /\
      (forall h, In h table -> is_pending db h = false ->
         processing_status db' !! taxpayer_id (row h)
         = processing_status db !! taxpayer_id (row h) /\
         tax_computations db' !! taxpayer_id (row h)
         = tax_computations db !! taxpayer_id (row h)) /\
      (forall h, In h table -> is_pending db h = true ->
         exists r, try_process_taxpayer h = Some r /\
           processing_status db' !! taxpayer_id (row h)
           = Some (match r with Some _ => COMPLETED | None => ERROR end) /\
           tax_computations db' !! taxpayer_id (row h)
           = match r with
             | Some c => Some c
             | None => tax_computations db !! taxpayer_id (row h)
             end).
Proof.
  intros Hnd fuel. induction fuel as [|fuel IH]; intros db Hfuel; [lia|].
  cbn [run_analysis_engine]. unfold fetch_pending.
  destruct (List.filter (is_pending db) table) as [|b pend] eqn:Hpend.
  - cbn [firstn]. exists db. split; [reflexivity|]. split; [auto|].
    split; [auto|]. intros h Hh Hp. exfalso.
    assert (Hin : In h (List.filter (is_pending db) table))
      by (apply filter_In; auto).
    rewrite Hpend in Hin. destruct Hin.
  - pose (batch := firstn 100 (b :: pend)).
    assert (Hbatch : forall h, In h batch -> In h table /\ is_pending db h = true).
    { intros h Hh. apply in_firstn in Hh. rewrite <- Hpend in Hh.
      apply filter_In in Hh. exact Hh. }
    assert (Hb : In b batch) by (left; reflexivity).
    assert (Hndb : NoDup (map (fun h => taxpayer_id (row h)) batch)).
    { unfold batch. rewrite <- Hpend.
      apply NoDup_map_firstn, NoDup_map_filter, Hnd. }
    destruct (process_batch_spec batch Hndb db) as (db1 & Hrun & Hout & Hin).
    cbn [firstn]. change (b :: firstn 99 pend) with batch. rewrite Hrun.
    (* a household of the table is in the batch when its id is *)
    assert (Hmem : forall h, In h table ->
              In (taxpayer_id (row h)) (map (fun h => taxpayer_id (row h)) batch) ->
              In h batch).
    { intros h Hh Hid. apply in_map_iff in Hid as (x & Hx & Hxin).
      destruct (Hbatch x Hxin) as [Hxt _].
      rewrite (same_id_same_household table h x Hnd Hh Hxt (eq_sym Hx)).
      exact Hxin. }
    assert (Hdone : forall h, In h batch -> is_pending db1 h = false).
    { intros h Hh. destruct (Hin h Hh) as (r & _ & Hs & _).
      unfold is_pending. rewrite Hs. destruct r; reflexivity. }
    assert (Hfuel1 : (length (List.filter (is_pending db1) table) < fuel)%nat).
    { assert (Hlt : (length (List.filter (is_pending db1) table)
                     < length (List.filter (is_pending db) table))%nat).
      { apply (filter_shrinks _ _ table b).
        - intros y Hy Hq.
          destruct (in_dec String.string_dec (taxpayer_id (row y))
                      (map (fun h => taxpayer_id (row h)) batch)) as [Hi|Hni].
          + rewrite (Hdone y (Hmem y Hy Hi)) in Hq. discriminate Hq.
          + rewrite <- Hq. symmetry. apply is_pending_same, (Hout _ Hni).
        - apply (Hbatch b Hb).
        - apply (Hbatch b Hb).
        - apply Hdone, Hb. }
      try rewrite Hpend in Hlt. try rewrite Hpend in Hfuel. lia. }
    destruct (IH db1 Hfuel1) as (db' & Hrun' & Hout' & Hkeep' & Hproc').
    exists db'. split; [exact Hrun'|]. split; [|split].
    + intros id Hid. destruct (Hout' id Hid) as [H1 H2]. rewrite H1, H2.
      apply Hout. intros Hi. apply Hid.
      apply in_map_iff in Hi as (x & Hx & Hxin).
      rewrite <- Hx.
      apply (in_map (fun h => taxpayer_id (row h))), (Hbatch x Hxin).
    + intros h Hh Hp.
      assert (Hni : ~ In (taxpayer_id (row h))
                      (map (fun h => taxpayer_id (row h)) batch)).
      { intros Hi. destruct (Hbatch h (Hmem h Hh Hi)) as [_ Hp'].
        rewrite Hp in Hp'. discriminate Hp'. }
      destruct (Hout _ Hni) as [H1 H2].
      assert (Hp1 : is_pending db1 h = false)
        by (rewrite (is_pending_same db db1 h H1); exact Hp).
      destruct (Hkeep' h Hh Hp1) as [H3 H4].
      rewrite H3, H4. split; assumption.
    + intros h Hh Hp.
      destruct (in_dec String.string_dec (taxpayer_id (row h))
                  (map (fun h => taxpayer_id (row h)) batch)) as [Hi|Hni].
      * pose proof (Hmem h Hh Hi) as Hhb.
        destruct (Hin h Hhb) as (r & Hr & Hs & Hc).
        destruct (Hkeep' h Hh (Hdone h Hhb)) as [H3 H4].
        exists r. rewrite H3, H4. auto.
      * destruct (Hout _ Hni) as [H1 H2].
        assert (Hp1 : is_pending db1 h = true)
          by (rewrite (is_pending_same db db1 h H1); exact Hp).
        destruct (Hproc' h Hh Hp1) as (r & Hr & Hs & Hc).
        exists r. split; [exact Hr|]. split; [exact Hs|].
        rewrite Hc, H2. reflexivity.
Qed.

Lemma ingested_status_keep (table : list household) (id : string) :
  forall m : gmap string status,
    m !! id = Some PENDING ->
    fold_left (fun m h => <[ taxpayer_id (row h) := PENDING ]> m) table m
    !! id = Some PENDING.
Proof.
  induction table as [|a table IH]; intros m Hm; [exact Hm|].
  cbn [fold_left]. apply IH.
  destruct (decide (taxpayer_id (row a) = id)) as [->|Hne].
  - apply lookup_insert_eq.
  - rewrite lookup_insert_ne by exact Hne. exact Hm.
Qed.

Lemma ingested_pending (table : list household) (h : household) :
  In h table -> is_pending (ingested table) h = true.
Proof.
  intros Hh. unfold is_pending, ingested. cbn [processing_status].
  assert (Hs : forall m : gmap string status,
            fold_left (fun m h => <[ taxpayer_id (row h) := PENDING ]> m) table m
            !! taxpayer_id (row h) = Some PENDING).
  { induction table as [|a table IH]; intros m; [destruct Hh|].
    cbn [fold_left]. destruct Hh as [->|Hh].
    - apply ingested_status_keep, lookup_insert_eq.
    - apply IH, Hh. }
  rewrite Hs. reflexivity.
Qed.

Lemma filter_length_le {A : Type} (p : A -> bool) (l : list A) :
  (length (List.filter p l) <= length l)%nat.
Proof.
  induction l as [|a l IH]; [cbn; lia|].
  cbn [List.filter]. destruct (p a); cbn [length]; lia.
Qed.

Lemma omap_ext_in {A B : Type} (f g : A -> option B) (l : list A) :
  (forall x, In x l -> f x = g x) -> omap f l = omap g l.
Proof.
  induction l as [|a l IH]; intros Hfg; [reflexivity|].
  cbn [omap list_omap]. rewrite (Hfg a (or_introl eq_refl)).
  rewrite IH by (intros x Hx; apply Hfg; right; exact Hx). reflexivity.
Qed.

Lemma omap_map {A B C : Type} (f : B -> option C) (g : A -> B) (l : list A) :
  omap f (map g l) = omap (fun x => f (g x)) l.
Proof.
  induction l as [|a l IH]; [reflexivity|].
  cbn [map omap list_omap]. rewrite <- IH. reflexivity.
Qed.

(** The loop of [run_analysis_engine] stops, whatever the state of the
    tables: with more rounds than pending households it returns, no
    household of the table is pending any more, each household that was
    pending has been processed once from its own rows (COMPLETED with
    its computation stored, or ERROR with no computation written, as
    its own processing ends; ERROR whenever one of the values it
    converts cannot be read), and rows that were not pending and ids
    outside the table are untouched. *)
Theorem analysis_engine_leaves_nothing_pending (table : list household)
    (db : results) (fuel : nat) :
  NoDup (map (fun h => taxpayer_id (row h)) table) ->
  (length (List.filter (is_pending db) table) < fuel)%nat ->
  exists db',
    run_analysis_engine fuel table db = Some db' /\
    (forall h, In h table -> is_pending db' h = false) /\
    (forall h, In h table -> is_pending db h = true ->
       exists r, try_process_taxpayer h = Some r /\
         (w2_income (row h) = None \/ ewma_income (row h) = None \/
          mapM read_transaction (transactions h) = None \/
          mapM (fun amount => amount) (donations h) = None \/
          num_children (row h) = None -> r = None) /\
         processing_status db' !! taxpayer_id (row h)
         = Some (match r with Some _ => COMPLETED | None => ERROR end) /\
         tax_computations db' !! taxpayer_id (row h)
         = match r with
           | Some c => Some c
           | None => tax_computations db !! taxpayer_id (row h)
           end) /\
    (forall h, In h table -> is_pending db h = false ->
       processing_status db' !! taxpayer_id (row h)
       = processing_status db !! taxpayer_id (row h) /\
       tax_computations db' !! taxpayer_id (row h)
       = tax_computations db !! taxpayer_id (row h)) /\
    (forall id, ~ In id (map (fun h => taxpayer_id (row h)) table) ->
       processing_status db' !! id = processing_status db !! id /\
       tax_computations db' !! id = tax_computations db !! id).
Proof.
  intros Hnd Hfuel.
  destruct (run_analysis_engine_spec table Hnd fuel db Hfuel)
    as (db' & Hrun & Hout & Hkeep & Hproc).
  exists db'. split; [exact Hrun|]. split; [|split; [|split]].
  - intros h Hh. destruct (is_pending db h) eqn:Hp.
    + destruct (Hproc h Hh Hp) as (r & _ & Hs & _).
      unfold is_pending. rewrite Hs. destruct r; reflexivity.
    + destruct (Hkeep h Hh Hp) as [Hs _].
      rewrite (is_pending_same db db' h Hs). exact Hp.
  - intros h Hh Hp. destruct (Hproc h Hh Hp) as (r & Hr & Hs & Hc).
    exists r. split; [exact Hr|]. split; [|split; assumption].
    destruct (try_process_taxpayer_total h) as (r' & Hr' & Herr).
    rewrite Hr in Hr'. injection Hr' as <-. exact Herr.
  - exact Hkeep.
  - exact Hout.
Qed.

(** A Californian and a Texan, freshly ingested. *)
Lemma analysis_engine_leaves_nothing_pending_witness :
  exists db',
    run_analysis_engine 3 Examples.two_households
      (ingested Examples.two_households) = Some db' /\
    forall h, In h Examples.two_households -> is_pending db' h = false.
Proof.
  destruct (analysis_engine_leaves_nothing_pending Examples.two_households
              (ingested Examples.two_households) 3)
    as (db' & Hrun & Hdone & _).
  - apply (bool_decide_unpack _). vm_compute. reflexivity.
  - vm_compute. lia.
  - exists db'. split; assumption.
Defined.

(** From ingestion to the output file: the analysis of a freshly
    ingested table followed by [write_output] lists, in table order,
    exactly the households whose processing ends in a computation, each
    with the rounded taxes of that computation; the households whose
    processing raises are left out. *)
Theorem output_follows_the_table (table : list household) :
  NoDup (map (fun h => taxpayer_id (row h)) table) ->
  exists db',
    run_analysis_engine (S (length table)) table (ingested table) = Some db' /\
    write_output (map row table) db'
    = omap (fun h =>
              match try_process_taxpayer h with
              | Some (Some c) =>
                  Some {| out_taxpayer_id := taxpayer_id (row h);
                          federal_tax := total_federal_tax c;
                          state_tax := total_state_tax c |}
              | _ => None
              end)
           table.
Proof.
  intros Hnd.
  assert (Hfuel : (length (List.filter (is_pending (ingested table)) table)
                   < S (length table))%nat).
  { pose proof (filter_length_le (is_pending (ingested table)) table). lia. }
  destruct (run_analysis_engine_spec table Hnd _ _ Hfuel)
    as (db' & Hrun & _ & _ & Hproc).
  exists db'. split; [exact Hrun|].
  unfold write_output. rewrite omap_map. apply omap_ext_in.
  intros h Hh.
  destruct (Hproc h Hh (ingested_pending table h Hh)) as (r & Hr & _ & Hc).
  rewrite Hr, Hc. destruct r as [c|]; [reflexivity|].
  cbn [ingested tax_computations]. rewrite lookup_empty. reflexivity.
Qed.

(** The Californian is listed first, the Texan second. *)
Lemma output_follows_the_table_witness :
  exists db',
    run_analysis_engine 3 Examples.two_households
      (ingested Examples.two_households) = Some db' /\
    map out_taxpayer_id (write_output (map row Examples.two_households) db')
    = ["CA-1"; "TX-1"].
Proof.
  destruct (output_follows_the_table Examples.two_households)
    as (db' & Hrun & Hout).
  - apply (bool_decide_unpack _). vm_compute. reflexivity.
  - exists db'. split; [exact Hrun|]. rewrite Hout. vm_compute. reflexivity.
Defined.
End Batches.

(** ** What one SELL takes *)

Section Selling.
Import AsyncEngine Fifo.




End Selling.

(** ** The two matchers on one asset *)

Section OneAsset.
Import AsyncEngine Fifo.







End OneAsset.

(** ** The income history from the input record to the smoother *)

Section History.


End History.

(** ** How the federal tax moves with wages, donations and children *)

Section Monotone.












End Monotone.
